(** * Offline cache manager (sw.js): a shallow embedding and its properties

    The service worker script of the site is embedded as Rocq functions
    over a small model of the browser interfaces it calls (URL, Request,
    Response, CacheStorage, Cache, fetch).  Asynchronous functions become
    computations in a monad that threads the cache storage, collects the
    trace of platform calls, and carries promise rejection. *)

From Stdlib Require Import String Ascii List ZArith Bool Lia.
From stdpp Require Import base option gmap strings list.

Import ListNotations.
Local Open Scope string_scope.
Local Open Scope list_scope.

(** ** String helpers used by the script *)

(** [s.startsWith(p)] *)
Definition startsWith (s p : string) : bool := String.prefix p s.

(** [s.includes(needle)] *)
Fixpoint includes (s needle : string) : bool :=
  if String.prefix needle s then true
  else match s with
       | EmptyString => false
       | String _ s' => includes s' needle
       end.

(** Number of occurrences of a character; only used in proofs about URLs. *)
Fixpoint occurrences (c : ascii) (s : string) : nat :=
  match s with
  | EmptyString => 0
  | String a s' => (if Ascii.eqb a c then 1 else 0) + occurrences c s'
  end.

(** Character classes and small parsers used by the model of the
    platform's URL and header handling. *)
Definition between (lo hi c : ascii) : bool :=
  Nat.leb (nat_of_ascii lo) (nat_of_ascii c)
  && Nat.leb (nat_of_ascii c) (nat_of_ascii hi).

Definition is_lower_alpha (c : ascii) : bool := between "a" "z" c.
Definition is_upper_alpha (c : ascii) : bool := between "A" "Z" c.
Definition is_digit (c : ascii) : bool := between "0" "9" c.

Definition one_of (chars : string) (c : ascii) : bool :=
  existsb (Ascii.eqb c) (list_ascii_of_string chars).

Definition to_lower (c : ascii) : ascii :=
  if is_upper_alpha c then ascii_of_nat (nat_of_ascii c + 32) else c.

Fixpoint lowercase (s : string) : string :=
  match s with
  | EmptyString => EmptyString
  | String c s' => String (to_lower c) (lowercase s')
  end.

Fixpoint split_on (sep : ascii) (s : string) : list string :=
  match s with
  | EmptyString => [EmptyString]
  | String c s' =>
      if Ascii.eqb c sep then EmptyString :: split_on sep s'
      else match split_on sep s' with
           | [] => [String c EmptyString]
           | x :: xs => String c x :: xs
           end
  end.

Definition is_blank (c : ascii) : bool := one_of " " c || Ascii.eqb c "009".

Fixpoint trim_left (s : string) : string :=
  match s with
  | EmptyString => EmptyString
  | String c s' => if is_blank c then trim_left s' else s
  end.

Fixpoint trim_right (s : string) : string :=
  match s with
  | EmptyString => EmptyString
  | String c s' =>
      match trim_right s' with
      | EmptyString => if is_blank c then EmptyString else String c EmptyString
      | r => String c r
      end
  end.

Definition trim (s : string) : string := trim_right (trim_left s).

(** [Some rest] when [s] is [p] followed by [rest]. *)
Fixpoint strip_prefix (p s : string) : option string :=
  match p with
  | EmptyString => Some s
  | String a p' =>
      match s with
      | EmptyString => None
      | String b s' => if Ascii.eqb a b then strip_prefix p' s' else None
      end
  end.

(** The text before the first slash, and the text after it if there is
    a slash. *)
Fixpoint cut_slash (s : string) : string * option string :=
  match s with
  | EmptyString => (EmptyString, None)
  | String c s' =>
      if Ascii.eqb c "/" then (EmptyString, Some s')
      else let '(h, rest) := cut_slash s' in (String c h, rest)
  end.

(** The last dot-separated label starts with a lower-case letter. *)
Fixpoint last_label_alpha (s : string) (at_start found : bool) : bool :=
  match s with
  | EmptyString => found
  | String c s' =>
      if Ascii.eqb c "." then last_label_alpha s' true false
      else if at_start then last_label_alpha s' false (is_lower_alpha c)
      else last_label_alpha s' false found
  end.

Fixpoint distinct (ks : list string) : bool :=
  match ks with
  | [] => true
  | k :: rest => negb (existsb (String.eqb k) rest) && distinct rest
  end.

(** ** Browser data: URL, Request, Response *)

(** A parsed hierarchical URL, as [new URL(request.url)] yields it.
    [protocol] carries its colon ("https:"), [host] the host and port,
    [path] what follows the first slash of the path (query included). *)
Record URL := mkURL { protocol : string; host : string; path : string }.

Definition origin (u : URL) : string := protocol u ++ "//" ++ host u.
Definition pathname (u : URL) : string := "/" ++ path u.
Definition href (u : URL) : string := origin u ++ pathname u.

(** The URL strings the model parses itself are those the platform's
    URL parser takes over character by character: a path and query (the
    text after the first slash) made of letters, digits and [-_.~/?=&]
    with no segment starting with a dot, and a host made of lower-case
    letters, digits, [-] and [.] with no empty label, no punycode label
    and a last label starting with a letter (so that it is not read as a
    number). *)
Definition path_char (c : ascii) : bool :=
  is_lower_alpha c || is_upper_alpha c || is_digit c || one_of "-_.~/?=&" c.

Definition plain_path (p : string) : bool :=
  forallb path_char (list_ascii_of_string p) && negb (includes ("/" ++ p) "/.").

Definition host_char (c : ascii) : bool :=
  is_lower_alpha c || is_digit c || one_of "-." c.

Definition plain_host (h : string) : bool :=
  negb (String.eqb h "")
  && forallb host_char (list_ascii_of_string h)
  && negb (includes ("." ++ h ++ ".") "..")
  && negb (includes h "xn--")
  && last_label_alpha h true false.

(** A host, then nothing or a slash and a path. *)
Definition authority (proto rest : string) : option URL :=
  let '(h, after) := cut_slash rest in
  if plain_host h && match after with Some p => plain_path p | None => true end
  then Some (mkURL proto h (match after with Some p => p | None => "" end))
  else None.

(** Parsing of a URL string against the base [loc], for the strings of
    the grammar above: an absolute http or https URL, a scheme-relative
    URL, or a path from the root of the base. [None] for every other
    string (a path relative to the base directory, dot segments, a
    fragment, a port, characters that are escaped or stripped, ...). *)
Definition parse_plain (loc : URL) (s : string) : option URL :=
  match strip_prefix "https://" s with
  | Some rest => authority "https:" rest
  | None =>
      match strip_prefix "http://" s with
      | Some rest => authority "http:" rest
      | None =>
          match strip_prefix "//" s with
          | Some rest => authority (protocol loc) rest
          | None =>
              match strip_prefix "/" s with
              | Some p =>
                  if plain_path p
                  then Some (mkURL (protocol loc) (host loc) p)
                  else None
              | None => None
              end
          end
      end
  end.

(** The schemes the Cache interface accepts. *)
Definition web_scheme (proto : string) : bool :=
  String.eqb proto "http:" || String.eqb proto "https:".

Record Request := mkRequest {
  req_url : URL;        (* request.url is [href (req_url r)] *)
  req_method : string;  (* request.method *)
  req_mode : string     (* request.mode *)
}.

Record Response := mkResponse {
  status : Z;
  statusText : string;
  headers : list (string * string);
  body : string
}.

(** [response.ok] *)
Definition ok (r : Response) : bool := (200 <=? status r)%Z && (status r <=? 299)%Z.

(** The response names [*] in a Vary header. *)
Definition vary_star (r : Response) : bool :=
  existsb (fun h => String.eqb (lowercase (fst h)) "vary"
                    && existsb (fun v => String.eqb (trim v) "*")
                         (split_on "," (snd h)))
          (headers r).

(** The response has no Vary header at all. *)
Definition no_vary (r : Response) : bool :=
  forallb (fun h => negb (String.eqb (lowercase (fst h)) "vary")) (headers r).

(** A response the Cache interface accepts to store: not a partial
    response (206) and not varying on [*]. *)
Definition storable (r : Response) : bool :=
  negb (Z.eqb (status r) 206) && negb (vary_star r).

(** [new Response(body, {status, statusText, headers})]: a string body
    gets the default text content type when the init names no header. *)
Definition new_Response (b : string) (st : Z) (stText : string)
    (hs : list (string * string)) : Response :=
  {| status := st; statusText := stText;
     headers := match hs with
                | [] => [("content-type", "text/plain;charset=UTF-8")]
                | _ => hs
                end;
     body := b |}.

(** ** Cache stores *)

(** One cache store: entries keyed by the request URL. Only GET requests
    are ever stored, so the URL alone is the key. Requests carry no
    headers here: matching does not look at the header names a stored
    response lists in Vary. *)
Abbreviation Cache := (gmap string Response).

(** The origin's cache storage: named stores in creation order, which is
    the order of [caches.keys()] and of [caches.match]. *)
Definition CacheStorage := list (string * Cache).

Definition has_store (name : string) (cs : CacheStorage) : bool :=
  existsb (fun p => String.eqb (fst p) name) cs.

Definition store (name : string) (cs : CacheStorage) : Cache :=
  match find (fun p => String.eqb (fst p) name) cs with
  | Some p => snd p
  | None => ∅
  end.

Definition ensure_store (name : string) (cs : CacheStorage) : CacheStorage :=
  if has_store name cs then cs else cs ++ [(name, ∅)].

Definition update_store (name : string) (f : Cache -> Cache)
    (cs : CacheStorage) : CacheStorage :=
  map (fun p => if String.eqb (fst p) name then (fst p, f (snd p)) else p) cs.

Definition remove_store (name : string) (cs : CacheStorage) : CacheStorage :=
  List.filter (fun p => negb (String.eqb (fst p) name)) cs.

Definition store_names (cs : CacheStorage) : list string := map fst cs.

(** First hit over all stores, in creation order. *)
Fixpoint storage_lookup (key : string) (cs : CacheStorage) : option Response :=
  match cs with
  | [] => None
  | (_, c) :: rest =>
      match c !! key with
      | Some r => Some r
      | None => storage_lookup key rest
      end
  end.

(** ** The effect monad *)

Inductive JsError :=
| TypeError (msg : string)
| DOMException (name : string).

(** Settled state of a promise. *)
Inductive Outcome (A : Type) :=
| Fulfilled (a : A)
| Rejected (e : JsError).
Arguments Fulfilled {A} a.
Arguments Rejected {A} e.

(** Platform calls made by the worker, in the order they happen. *)
Inductive Event :=
| EvFetch (r : Request)                        (* fetch(r): a network round trip *)
| EvOpen (name : string)                       (* caches.open(name) *)
| EvCacheMatch (name : string) (r : Request)   (* cache.match(r) on store name *)
| EvCachePut (name : string) (r : Request)     (* cache.put(r, _) on store name *)
| EvAddAll (name : string) (urls : list string)(* cache.addAll(urls) *)
| EvStorageMatch (r : Request)                 (* caches.match(r): all stores *)
| EvKeys                                       (* caches.keys() *)
| EvDelete (name : string)                     (* caches.delete(name) *)
| EvSkipWaiting                                (* self.skipWaiting() *)
| EvClaim.                                     (* self.clients.claim() *)

(** What the worker cannot control: where it is served from, what the
    network answers ([None]: the fetch promise rejects), and what the
    platform's URL parser makes of the strings this model does not parse
    itself ([None]: the string is not a URL, the constructor throws). *)
Record Env := mkEnv {
  location : URL;
  network : Request -> option Response;
  parse_other : string -> option URL
}.

Definition M (A : Type) : Type :=
  Env -> CacheStorage -> Outcome A * CacheStorage * list Event.

Definition ret {A} (a : A) : M A := fun _ cs => (Fulfilled a, cs, []).

Definition bind {A B} (m : M A) (k : A -> M B) : M B :=
  fun env cs =>
    let '(o, cs1, t1) := m env cs in
    match o with
    | Fulfilled a => let '(o2, cs2, t2) := k a env cs1 in (o2, cs2, t1 ++ t2)
    | Rejected e => (Rejected e, cs1, t1)
    end.

Declare Scope js_scope.
Delimit Scope js_scope with js.
Notation "x <- m ;; k" := (bind m (fun x => k))
  (at level 100, m at next level, right associativity) : js_scope.
Notation "m ;;; k" := (bind m (fun _ => k))
  (at level 100, right associativity) : js_scope.
Local Open Scope js_scope.

(** [try { m } catch (error) { h error }], and [p.catch(h)]. *)
Definition try_catch {A} (m : M A) (h : JsError -> M A) : M A :=
  fun env cs =>
    let '(o, cs1, t1) := m env cs in
    match o with
    | Fulfilled a => (Fulfilled a, cs1, t1)
    | Rejected e => let '(o2, cs2, t2) := h e env cs1 in (o2, cs2, t1 ++ t2)
    end.

(** A promise that is started but not awaited: its effects happen, its
    settlement (a rejection included) is not observed by the caller. *)
Definition detached {A} (m : M A) : M unit :=
  fun env cs => let '(_, cs1, t1) := m env cs in (Fulfilled tt, cs1, t1).

(** [Promise.all(xs.map(f))]: the results in order, rejected as soon as
    one element rejects. *)
Fixpoint all_map {A B} (f : A -> M B) (xs : list A) : M (list B) :=
  match xs with
  | [] => ret []
  | x :: rest => y <- f x ;; ys <- all_map f rest ;; ret (y :: ys)
  end.

Definition emit (e : Event) : M unit := fun _ cs => (Fulfilled tt, cs, [e]).
Definition reject {A} (e : JsError) : M A := fun _ cs => (Rejected e, cs, []).
Definition get_storage : M CacheStorage := fun _ cs => (Fulfilled cs, cs, []).
Definition set_storage (cs : CacheStorage) : M unit := fun _ _ => (Fulfilled tt, cs, []).
Definition ask : M Env := fun env cs => (Fulfilled env, cs, []).

(** ** Browser operations *)

(** The URL of a string of the parsed grammar, resolved against the
    worker's location; the location itself stands in for the other
    strings, which no operation below resolves this way. *)
Definition resolve (loc : URL) (s : string) : URL :=
  match parse_plain loc s with
  | Some u => u
  | None => loc
  end.

(** [new Request(s)] for a string of the parsed grammar. *)
Definition request_of (loc : URL) (s : string) : Request :=
  mkRequest (resolve loc s) "GET" "cors".

(** The platform's URL parser on any string. *)
Definition parse (env : Env) (s : string) : option URL :=
  match parse_plain (location env) s with
  | Some u => Some u
  | None => parse_other env s
  end.

(** [new Request(s)] for any string: [None] when the constructor throws. *)
Definition new_Request (env : Env) (s : string) : option Request :=
  match parse env s with
  | Some u => Some (mkRequest u "GET" "cors")
  | None => None
  end.

Definition is_GET (r : Request) : bool := String.eqb (req_method r) "GET".

(** The key of a request in a store. *)
Definition cache_key (r : Request) : string := href (req_url r).

(** [fetch(request)] *)
Definition fetch (request : Request) : M Response :=
  env <- ask ;;
  emit (EvFetch request) ;;;
  match network env request with
  | Some response => ret response
  | None => reject (TypeError "Failed to fetch")
  end.

(** [caches.open(name)]: creates the store when it does not exist. The
    handle of a store is its name. *)
Definition caches_open (name : string) : M string :=
  emit (EvOpen name) ;;;
  cs <- get_storage ;;
  set_storage (ensure_store name cs) ;;;
  ret name.

(** [cache.match(request)]: requests other than GET never match. *)
Definition cache_match (cache : string) (request : Request) : M (option Response) :=
  emit (EvCacheMatch cache request) ;;;
  cs <- get_storage ;;
  ret (if is_GET request then store cache cs !! cache_key request else None).

(** [cache.match('/some/path')] *)
Definition cache_match_url (cache : string) (u : string) : M (option Response) :=
  env <- ask ;;
  match new_Request env u with
  | Some request => cache_match cache request
  | None => reject (TypeError "Invalid URL")
  end.

(** [cache.put(request, response)]: rejects for requests other than GET
    or with a scheme other than http and https, and for a response that
    is partial (206) or varies on [*]. *)
Definition cache_put (cache : string) (request : Request) (response : Response) : M unit :=
  emit (EvCachePut cache request) ;;;
  if is_GET request && web_scheme (protocol (req_url request)) then
    if storable response then
      cs <- get_storage ;;
      set_storage (update_store cache (fun c => <[cache_key request := response]> c) cs)
    else reject (TypeError "Response is not storable")
  else reject (TypeError "Request method or scheme is unsupported").

(** The batch of [cache.addAll]: a request is made of every string and
    fetched; a string that is no URL, a scheme other than http and https,
    a rejected fetch, a response that is not ok, a partial response (206)
    or one varying on [*] rejects the whole batch. The browser issues the
    fetches together; here they are taken in list order up to the first
    failure, which changes the trace only. *)
Fixpoint fetch_batch (urls : list string) : M (list (Request * Response)) :=
  match urls with
  | [] => ret []
  | u :: rest =>
      env <- ask ;;
      match new_Request env u with
      | None => reject (TypeError "Invalid URL")
      | Some request =>
          if web_scheme (protocol (req_url request)) then
            response <- fetch request ;;
            if ok response && storable response then
              others <- fetch_batch rest ;;
              ret ((request, response) :: others)
            else reject (TypeError "Request failed")
          else reject (TypeError "Request scheme is unsupported")
      end
  end.

Definition put_all (entries : list (Request * Response)) (c : Cache) : Cache :=
  fold_left (fun acc p => <[cache_key (fst p) := snd p]> acc) entries c.

(** [cache.addAll(urls)]: nothing is written unless the batch succeeds;
    a batch that names one URL twice is refused as a whole. *)
Definition cache_addAll (cache : string) (urls : list string) : M unit :=
  emit (EvAddAll cache urls) ;;;
  entries <- fetch_batch urls ;;
  if distinct (map (fun e => cache_key (fst e)) entries) then
    cs <- get_storage ;;
    set_storage (update_store cache (put_all entries) cs)
  else reject (DOMException "InvalidStateError").

(** [caches.match('/some/path')]: looks in every store. *)
Definition caches_match_url (u : string) : M (option Response) :=
  env <- ask ;;
  match new_Request env u with
  | Some request =>
      emit (EvStorageMatch request) ;;;
      cs <- get_storage ;;
      ret (storage_lookup (cache_key request) cs)
  | None => reject (TypeError "Invalid URL")
  end.

(** [caches.keys()] *)
Definition caches_keys : M (list string) :=
  emit EvKeys ;;;
  cs <- get_storage ;;
  ret (store_names cs).

(** [caches.delete(name)] *)
Definition caches_delete (name : string) : M bool :=
  emit (EvDelete name) ;;;
  cs <- get_storage ;;
  set_storage (remove_store name cs) ;;;
  ret (has_store name cs).

(** [self.skipWaiting()] and [self.clients.claim()] *)
Definition skipWaiting : M unit := emit EvSkipWaiting.
Definition clients_claim : M unit := emit EvClaim.

(** ** The worker script *)

Definition CACHE_VERSION : string := "ai-interior-v1.0.0".
Definition CACHE_NAME : string := CACHE_VERSION ++ "::static".
Definition RUNTIME_CACHE : string := CACHE_VERSION ++ "::runtime".

(** Assets to cache on install *)
Definition PRECACHE_ASSETS : list string := [
  "/";
  "/index.html";
  "/assets/css/main.css";
  "/assets/css/components.css";
  "/assets/js/main.js";
  "/assets/js/theme.js";
  "/assets/js/navigation.js";
  "/assets/js/animations.js";
  "/assets/js/portfolio.js";
  "/assets/js/utils.js";
  "/assets/js/form-handler.js";
  "/components/header.html";
  "/components/hero-section.html";
  "/components/about-section.html";
  "/components/services-section.html";
  "/components/portfolio-section.html";
  "/components/why-choose-section.html";
  "/components/process-section.html";
  "/components/testimonials-section.html";
  "/components/blog-section.html";
  "/components/contact-section.html";
  "/components/footer.html"
].

(** CDN and external resources to cache at runtime *)
Definition RUNTIME_CACHE_URLS : list string := [
  "https://fonts.googleapis.com";
  "https://fonts.gstatic.com";
  "https://cdnjs.cloudflare.com"
].

(** The path both strategies look up as the offline page. *)
Definition OFFLINE_URL : string := "/offline.html".

(** Install event: the promise handed to [event.waitUntil]. *)
Definition install : M unit :=
  try_catch
    (cache <- caches_open CACHE_NAME ;;
     cache_addAll cache PRECACHE_ASSETS ;;;
     skipWaiting)
    (fun error => ret tt (* console.error only *)).

(** Activate event: the promise handed to [event.waitUntil]. *)
Definition activate : M unit :=
  cacheNames <- caches_keys ;;
  all_map (fun cacheName =>
             if negb (String.eqb cacheName CACHE_NAME)
                && negb (String.eqb cacheName RUNTIME_CACHE)
             then (caches_delete cacheName ;;; ret tt)
             else ret tt)
          cacheNames ;;;
  clients_claim.

(** Check if external URL should be cached *)
Definition shouldCacheExternal (url : URL) : bool :=
  existsb (fun cacheUrl => startsWith (href url) cacheUrl) RUNTIME_CACHE_URLS.

(** Cache First Strategy *)
Definition cacheFirst (request : Request) (cacheName : string) : M Response :=
  cache <- caches_open cacheName ;;
  cached <- cache_match cache request ;;
  match cached with
  | Some cached => ret cached
  | None =>
      try_catch
        (response <- fetch request ;;
         (if ok response
          then detached (cache_put cache request response)
          else ret tt) ;;;
         ret response)
        (fun error =>
           offlinePage <- cache_match_url cache OFFLINE_URL ;;
           match offlinePage with
           | Some offlinePage => ret offlinePage
           | None =>
               ret (new_Response "Offline - Content not available" 503
                      "Service Unavailable" [("Content-Type", "text/plain")])
           end)
  end.

(** Network First Strategy *)
Definition networkFirst (request : Request) : M Response :=
  cache <- caches_open RUNTIME_CACHE ;;
  try_catch
    (response <- fetch request ;;
     (if ok response
      then detached (cache_put cache request response)
      else ret tt) ;;;
     ret response)
    (fun error =>
       cached <- cache_match cache request ;;
       match cached with
       | Some cached => ret cached
       | None =>
           offlinePage <-
             (if String.eqb (req_mode request) "navigate" then
                first <- caches_match_url OFFLINE_URL ;;
                match first with
                | Some p => ret (Some p)
                | None => caches_match_url "/index.html"
                end
              else ret None) ;;
           match offlinePage with
           | Some offlinePage => ret offlinePage
           | None => ret (new_Response "Offline" 503 "Service Unavailable" [])
           end
       end).

(** Fetch event: [None] when the listener returns without calling
    [event.respondWith] (the browser then handles the request itself),
    otherwise the promise handed to [event.respondWith]. *)
Definition onfetch (loc : URL) (request : Request) : option (M Response) :=
  let url := req_url request in
  if negb (String.eqb (origin url) (origin loc)) then
    if shouldCacheExternal url
    then Some (cacheFirst request RUNTIME_CACHE)
    else None
  else if includes (href (req_url request)) "/api/" then
    Some (networkFirst request)
  else if negb (String.eqb (req_method request) "GET") then
    Some (fetch request)
  else if String.eqb (req_mode request) "navigate" then
    Some (networkFirst request)
  else
    Some (cacheFirst request CACHE_NAME).

(** One fetch event delivered to the worker: the settled response when
    the worker responded, the storage afterwards, the platform calls. *)
Definition dispatch_fetch (env : Env) (request : Request) (cs : CacheStorage)
  : option (Outcome Response) * CacheStorage * list Event :=
  match onfetch (location env) request with
  | None => (None, cs, [])
  | Some p => let '(o, cs', t) := p env cs in (Some o, cs', t)
  end.

(** ** Vocabulary of the properties *)

(** The event consults a cache store (an open alone is not a lookup). *)
Definition is_cache_lookup (e : Event) : bool :=
  match e with
  | EvCacheMatch _ _ | EvStorageMatch _ => true
  | _ => false
  end.

Definition is_cache_write (e : Event) : bool :=
  match e with
  | EvCachePut _ _ | EvAddAll _ _ => true
  | _ => false
  end.

Definition is_network_fetch (e : Event) : bool :=
  match e with EvFetch _ => true | _ => false end.

Definition is_store_deletion (e : Event) : bool :=
  match e with EvDelete _ => true | _ => false end.

Definition is_skip_waiting (e : Event) : bool :=
  match e with EvSkipWaiting => true | _ => false end.

(** The event touches the store of that name. *)
Definition touches_store (name : string) (e : Event) : bool :=
  match e with
  | EvOpen n | EvCacheMatch n _ | EvCachePut n _ | EvAddAll n _ | EvDelete n =>
      String.eqb n name
  | EvStorageMatch _ => true
  | _ => false
  end.

(** A precache URL whose fetch fails: the network throws, or answers
    with a status that is not a success. *)
Definition fetch_fails (env : Env) (u : string) : bool :=
  match network env (request_of (location env) u) with
  | Some r => negb (ok r)
  | None => true
  end.

(** The write-through of a strategy stores the response: it is a success
    to a GET request over http or https that the Cache interface accepts
    to store. *)
Definition written_through (request : Request) (response : Response) : bool :=
  ok response
  && (is_GET request && web_scheme (protocol (req_url request)) && storable response).

(** A URL string of a batch whose request fails: the string is no URL,
    the network throws, or it answers with a status that is not a
    success. *)
Definition url_fetch_fails (env : Env) (u : string) : bool :=
  match new_Request env u with
  | Some request =>
      match network env request with
      | Some r => negb (ok r)
      | None => true
      end
  | None => true
  end.

(** The network answers the path of the site with a response that is a
    success and that the Cache interface accepts to store. *)
Definition answers_storable (env : Env) (u : string) : bool :=
  match network env (request_of (location env) u) with
  | Some r => ok r && storable r
  | None => false
  end.

(** The allow-list read as the specification words it: the request's
    origin matches when an allow-listed origin prefix starts it. *)
Definition origin_allow_listed (url : URL) : bool :=
  existsb (fun allowed => startsWith (origin url) allowed) RUNTIME_CACHE_URLS.

(** The two synthetic responses. *)
Definition offline_plain_503 : Response :=
  new_Response "Offline - Content not available" 503 "Service Unavailable"
    [("Content-Type", "text/plain")].
Definition offline_503 : Response :=
  new_Response "Offline" 503 "Service Unavailable" [].

(** The copy of a request a store holds, as [cache.match] sees it. *)
Definition cached_copy (name : string) (request : Request)
    (cs : CacheStorage) : option Response :=
  if is_GET request then store name cs !! cache_key request else None.

(** The store belongs to the current version. *)
Definition is_current (name : string) : bool :=
  String.eqb name CACHE_NAME || String.eqb name RUNTIME_CACHE.

(** What a bare [fetch(request)] settles to. *)
Definition network_outcome (env : Env) (request : Request) : Outcome Response :=
  match network env request with
  | Some response => Fulfilled response
  | None => Rejected (TypeError "Failed to fetch")
  end.

(** ** Sample inputs *)

Module Sample.

Definition site : URL := mkURL "https:" "interior.example" "sw.js".

Definition page (b : string) : Response := mkResponse 200 "OK" [] b.

(** Every request is answered 200 with its own URL as the body. *)
Definition net_up : Request -> option Response :=
  fun r => Some (page (href (req_url r))).

(** Every fetch rejects. *)
Definition net_down : Request -> option Response := fun _ => None.

(** One stylesheet of the precache list answers 404. *)
Definition net_css_404 : Request -> option Response :=
  fun r =>
    if String.eqb (href (req_url r)) "https://interior.example/assets/css/main.css"
    then Some (mkResponse 404 "Not Found" [] "")
    else Some (page (href (req_url r))).

(** No string outside the parsed grammar is taken for a URL. *)
Definition no_other_urls : string -> option URL := fun _ => None.

Definition online : Env := mkEnv site net_up no_other_urls.
Definition offline : Env := mkEnv site net_down no_other_urls.
Definition css_missing : Env := mkEnv site net_css_404 no_other_urls.

Definition same_origin (p : string) : URL := mkURL "https:" "interior.example" p.

Definition post_form : Request := mkRequest (same_origin "contact") "POST" "cors".
Definition get_logo : Request := mkRequest (same_origin "assets/images/logo.png") "GET" "no-cors".
Definition navigate_home : Request := mkRequest (same_origin "index.html") "GET" "navigate".
Definition get_font : Request :=
  mkRequest (mkURL "https:" "fonts.gstatic.com" "s/inter/v12/inter.woff2") "GET" "cors".
Definition get_tracker : Request :=
  mkRequest (mkURL "https:" "tracker.example" "pixel.gif") "GET" "no-cors".

Definition offline_key : string := "https://interior.example/offline.html".

(** A storage left behind by an older version next to the current one. *)
Definition after_upgrade : CacheStorage :=
  [("ai-interior-v0.9.0::static", {[ "https://interior.example/" := page "old shell" ]});
   (CACHE_NAME, {[ offline_key := page "You are offline" ]});
   ("ai-interior-v0.9.0::runtime", ∅);
   (RUNTIME_CACHE, ∅)].

(** The static store holds the logo and the offline page. *)
Definition warm : CacheStorage :=
  [(CACHE_NAME, {[ "https://interior.example/assets/images/logo.png" := page "PNG";
                   offline_key := page "You are offline" ]});
   (RUNTIME_CACHE, ∅)].

End Sample.

(** ** The other listeners of the script *)

(** The data of a message event, as far as the listener reads it:
    [None] for a message that is null or carries no object, a missing
    [type] or [urls] property as [None]. *)
Record MessageData := mkMessage {
  msg_type : option string;
  msg_urls : option (list string)
}.

(** [event.data && event.data.type === t] *)
Definition has_type (data : option MessageData) (t : string) : bool :=
  match data with
  | Some d =>
      match msg_type d with
      | Some ty => String.eqb ty t
      | None => false
      end
  | None => false
  end.

(** [event.data.urls || []] *)
Definition urls_of (data : option MessageData) : list string :=
  match data with
  | Some d =>
      match msg_urls d with
      | Some urls => urls
      | None => []
      end
  | None => []
  end.

(** Message event: the three tests run one after the other; the promise
    is the one handed to [event.waitUntil] by the branch that is taken.
    [self.skipWaiting()] is called without being awaited. *)
Definition onmessage (data : option MessageData) : M unit :=
  (if has_type data "SKIP_WAITING" then detached skipWaiting else ret tt) ;;;
  (if has_type data "CLEAR_CACHE" then
     cacheNames <- caches_keys ;;
     all_map (fun cacheName => caches_delete cacheName) cacheNames ;;;
     ret tt
   else ret tt) ;;;
  (if has_type data "CACHE_URLS" then
     let urlsToCache := urls_of data in
     cache <- caches_open RUNTIME_CACHE ;;
     cache_addAll cache urlsToCache
   else ret tt).

(** Sync offline form submissions when back online: logs only. *)
Definition syncForms : M unit := ret tt.

(** Sync event *)
Definition onsync (tag : string) : M unit :=
  if String.eqb tag "sync-forms" then syncForms else ret tt.

(** The JSON object of a push message, as far as the listener reads it:
    each of the three properties is a string or is missing. *)
Record PushData := mkPush {
  push_title : option string;
  push_body : option string;
  push_url : option string
}.

Record NotificationOptions := mkOptions {
  opt_body : string;
  opt_icon : string;
  opt_badge : string;
  opt_data : string
}.

(** [v || d] for a value that is a string or undefined: the empty
    string is falsy. *)
Definition or_else (v : option string) (d : string) : string :=
  match v with
  | Some EmptyString => d
  | Some s => s
  | None => d
  end.

(** Push event: the title and the options given to
    [self.registration.showNotification]. [None] is an event without
    data, for which the listener reads an empty object. *)
Definition onpush (payload : option PushData) : string * NotificationOptions :=
  let data := match payload with
              | Some d => d
              | None => mkPush None None None
              end in
  let options :=
    {| opt_body := or_else (push_body data) "New update from AI Interior";
       opt_icon := "/assets/images/icon-192.png";
       opt_badge := "/assets/images/badge-72.png";
       opt_data := or_else (push_url data) "/" |} in
  (or_else (push_title data) "AI Interior", options).

(** Notification click: the URL given to [clients.openWindow], from the
    notification's data. *)
Definition onnotificationclick (notification_data : option string) : string :=
  or_else notification_data "/".

(** ** Vocabulary of the further properties *)

(** Only stores of the current version exist. *)
Definition only_current (cs : CacheStorage) : bool :=
  forallb is_current (store_names cs).

(** No store of the current version holds an entry for the key. *)
Definition not_in_current (key : string) (cs : CacheStorage) : bool :=
  forallb (fun p => negb (is_current (fst p))
                    || match snd p !! key with Some _ => false | None => true end) cs.

(** The storage a run ends with. *)
Definition storage_after {A} (r : A * CacheStorage * list Event) : CacheStorage :=
  snd (fst r).

(** The computation creates no store besides the two of the current
    version: every store name it leaves was there before, or is one of
    the two. *)
Definition creates_only_current {A} (m : M A) : Prop :=
  forall env cs,
    incl (store_names (storage_after (m env cs)))
         (CACHE_NAME :: RUNTIME_CACHE :: store_names cs).

(** A same-origin GET for a path of the site, as a page issues it. *)
Definition site_request (loc : URL) (u : string) (mode : string) : Request :=
  mkRequest (resolve loc u) "GET" mode.

Module Scenario.

(** Every request is answered 500. *)
Definition net_broken : Request -> option Response :=
  fun _ => Some (mkResponse 500 "Internal Server Error" [] "oops").

Definition broken : Env := mkEnv Sample.site net_broken Sample.no_other_urls.

Definition get_api : Request :=
  mkRequest (Sample.same_origin "api/quotes") "GET" "cors".
Definition get_about : Request :=
  mkRequest (Sample.same_origin "about") "GET" "navigate".

(** The contact endpoint the form handler of the site is configured
    with, posted to. *)
Definition post_contact : Request :=
  mkRequest (Sample.same_origin "api/contact.php") "POST" "cors".

(** A CDN answers, the site itself is down; and the reverse. *)
Definition net_cdn_only : Request -> option Response :=
  fun r =>
    if String.eqb (host (req_url r)) "cdnjs.cloudflare.com"
    then Some (Sample.page "lib") else None.
Definition cdn_only : Env := mkEnv Sample.site net_cdn_only Sample.no_other_urls.

Definition net_site_only : Request -> option Response :=
  fun r =>
    if String.eqb (host (req_url r)) "interior.example"
    then Some (Sample.page "page") else None.
Definition site_only : Env := mkEnv Sample.site net_site_only Sample.no_other_urls.

(** Every request is answered with a partial response. *)
Definition net_partial : Request -> option Response :=
  fun _ => Some (mkResponse 206 "Partial Content" [] "part").
Definition partial : Env := mkEnv Sample.site net_partial Sample.no_other_urls.

Definition clear_cache : option MessageData := Some (mkMessage (Some "CLEAR_CACHE") None).
Definition skip_waiting : option MessageData := Some (mkMessage (Some "SKIP_WAITING") None).
Definition cache_urls (urls : list string) : option MessageData :=
  Some (mkMessage (Some "CACHE_URLS") (Some urls)).
Definition ping : option MessageData := Some (mkMessage (Some "PING") None).

End Scenario.

(** * Properties *)

(** ** Running the platform operations *)

Section Run.
Context (env : Env) (cs : CacheStorage).

Lemma run_caches_open name :
  caches_open name env cs = (Fulfilled name, ensure_store name cs, [EvOpen name]).
Proof. reflexivity. Qed.

Lemma run_cache_match cache request :
  cache_match cache request env cs
  = (Fulfilled (cached_copy cache request cs), cs, [EvCacheMatch cache request]).
Proof. reflexivity. Qed.

(** A string of the parsed grammar makes the request [request_of]
    gives. *)
Lemma new_Request_plain u url :
  parse_plain (location env) u = Some url ->
  new_Request env u = Some (request_of (location env) u).
Proof.
  intros H. unfold new_Request, parse, request_of, resolve. rewrite H. reflexivity.
Qed.

Lemma run_cache_match_url cache u url :
  parse_plain (location env) u = Some url ->
  cache_match_url cache u env cs
  = (Fulfilled (store cache cs !! cache_key (request_of (location env) u)), cs,
     [EvCacheMatch cache (request_of (location env) u)]).
Proof.
  intros H. unfold cache_match_url, bind, ask.
  rewrite (new_Request_plain _ _ H). reflexivity.
Qed.

Lemma run_caches_match_url u url :
  parse_plain (location env) u = Some url ->
  caches_match_url u env cs
  = (Fulfilled (storage_lookup (cache_key (request_of (location env) u)) cs), cs,
     [EvStorageMatch (request_of (location env) u)]).
Proof.
  intros H. unfold caches_match_url, bind, ask.
  rewrite (new_Request_plain _ _ H). reflexivity.
Qed.

(** The two pages the strategies look up are paths of the site. *)
Lemma parse_offline_page :
  parse_plain (location env) OFFLINE_URL
  = Some (mkURL (protocol (location env)) (host (location env)) "offline.html").
Proof. reflexivity. Qed.

Lemma parse_shell :
  parse_plain (location env) "/index.html"
  = Some (mkURL (protocol (location env)) (host (location env)) "index.html").
Proof. reflexivity. Qed.

Lemma run_fetch request :
  fetch request env cs = (network_outcome env request, cs, [EvFetch request]).
Proof.
  unfold fetch, network_outcome, bind, ask, emit. simpl.
  destruct (network env request); reflexivity.
Qed.

Lemma run_cache_put_other cache request response :
  is_GET request = false ->
  cache_put cache request response env cs
  = (Rejected (TypeError "Request method or scheme is unsupported"), cs,
     [EvCachePut cache request]).
Proof. intros H. unfold cache_put, bind, emit. simpl. rewrite H. reflexivity. Qed.

(** A write happens for a GET request over http or https with a storable
    response, and never otherwise. *)
Lemma run_cache_put cache request response :
  exists o,
    cache_put cache request response env cs
    = (o,
       if is_GET request && web_scheme (protocol (req_url request))
          && storable response
       then update_store cache (fun c => <[cache_key request := response]> c) cs
       else cs,
       [EvCachePut cache request]).
Proof.
  unfold cache_put, bind, emit. simpl.
  destruct (is_GET request && web_scheme (protocol (req_url request)));
    [|eexists; reflexivity].
  destruct (storable response); eexists; reflexivity.
Qed.

Lemma run_caches_delete name :
  caches_delete name env cs
  = (Fulfilled (has_store name cs), remove_store name cs, [EvDelete name]).
Proof. reflexivity. Qed.

End Run.

(** ** Facts about the storage *)

Lemma has_store_find name (cs : CacheStorage) :
  has_store name cs = false -> find (fun p => String.eqb (fst p) name) cs = None.
Proof.
  induction cs as [|p rest IH]; simpl; [reflexivity|].
  destruct (String.eqb (fst p) name); simpl; [discriminate | exact IH].
Qed.

Lemma find_app_miss {A} (f : A -> bool) (l1 l2 : list A) :
  find f l1 = None -> find f (l1 ++ l2) = find f l2.
Proof.
  induction l1 as [|a l1 IH]; simpl; [reflexivity|].
  destruct (f a); [discriminate | exact IH].
Qed.

Lemma find_app_hit {A} (f : A -> bool) (l1 l2 : list A) x :
  find f l1 = Some x -> find f (l1 ++ l2) = Some x.
Proof.
  induction l1 as [|a l1 IH]; simpl; [discriminate|].
  destruct (f a); [trivial | exact IH].
Qed.

(** Opening a store never changes what any store holds. *)
Lemma store_ensure name n (cs : CacheStorage) :
  store n (ensure_store name cs) = store n cs.
Proof.
  unfold ensure_store. destruct (has_store name cs) eqn:Hs; [reflexivity|].
  unfold store.
  destruct (find (fun p => String.eqb (fst p) n) cs) eqn:Hf.
  - rewrite (find_app_hit _ _ _ _ Hf). reflexivity.
  - rewrite (find_app_miss _ _ _ Hf). simpl.
    destruct (String.eqb name n); reflexivity.
Qed.

Lemma cached_copy_ensure name n request (cs : CacheStorage) :
  cached_copy n request (ensure_store name cs) = cached_copy n request cs.
Proof. unfold cached_copy. rewrite store_ensure. reflexivity. Qed.

Lemma storage_lookup_app key (cs1 cs2 : CacheStorage) :
  storage_lookup key (cs1 ++ cs2)
  = match storage_lookup key cs1 with
    | Some r => Some r
    | None => storage_lookup key cs2
    end.
Proof.
  induction cs1 as [|[n c] rest IH]; simpl; [reflexivity|].
  destruct (c !! key); [reflexivity | exact IH].
Qed.

Lemma storage_lookup_ensure key name (cs : CacheStorage) :
  storage_lookup key (ensure_store name cs) = storage_lookup key cs.
Proof.
  unfold ensure_store. destruct (has_store name cs); [reflexivity|].
  rewrite storage_lookup_app. simpl. rewrite lookup_empty.
  destruct (storage_lookup key cs); reflexivity.
Qed.

Lemma ensure_store_present name (cs : CacheStorage) :
  has_store name cs = true -> ensure_store name cs = cs.
Proof. intros H. unfold ensure_store. rewrite H. reflexivity. Qed.

Lemma store_hit_has_store name key r (cs : CacheStorage) :
  store name cs !! key = Some r -> has_store name cs = true.
Proof.
  intros H. destruct (has_store name cs) eqn:Hs; [reflexivity|].
  unfold store in H. rewrite (has_store_find _ _ Hs) in H.
  rewrite lookup_empty in H. discriminate.
Qed.

(** A write with an identity update leaves the stores as they are. *)
Lemma store_update name n f (cs : CacheStorage) :
  store n (update_store name f cs)
  = if String.eqb n name && has_store name cs then f (store n cs) else store n cs.
Proof.
  unfold store, update_store, has_store.
  induction cs as [|[m c] rest IH]; simpl.
  - rewrite andb_false_r. reflexivity.
  - destruct (String.eqb m name) eqn:Hm; simpl.
    + apply String.eqb_eq in Hm. subst m.
      rewrite (String.eqb_sym name n).
      destruct (String.eqb n name) eqn:Hn; simpl; [reflexivity|].
      simpl in IH. exact IH.
    + destruct (String.eqb m n) eqn:Hmn; simpl.
      * apply String.eqb_eq in Hmn. subst m.
        rewrite Hm. simpl. reflexivity.
      * exact IH.
Qed.

(** ** Activation *)

Lemma filter_filter_and {A} (f g : A -> bool) (l : list A) :
  List.filter f (List.filter g l) = List.filter (fun x => g x && f x) l.
Proof.
  induction l as [|a l IH]; simpl; [reflexivity|].
  destruct (g a); simpl; [destruct (f a)|]; rewrite IH; reflexivity.
Qed.

Lemma stale_test name :
  negb (String.eqb name CACHE_NAME) && negb (String.eqb name RUNTIME_CACHE)
  = negb (is_current name).
Proof. unfold is_current. rewrite negb_orb. reflexivity. Qed.

(** The deletions of [activate], for any list of names handed to it. *)
Lemma run_sweep (ns : list string) env (cs : CacheStorage) :
  all_map (fun cacheName =>
             if negb (String.eqb cacheName CACHE_NAME)
                && negb (String.eqb cacheName RUNTIME_CACHE)
             then (caches_delete cacheName ;;; ret tt)
             else ret tt) ns env cs
  = (Fulfilled (map (fun _ => tt) ns),
     List.filter
       (fun p => negb (existsb (fun n => negb (is_current n) && String.eqb (fst p) n) ns))
       cs,
     map EvDelete (List.filter (fun n => negb (is_current n)) ns)).
Proof.
  revert cs. induction ns as [|n ns IH]; intros cs.
  - simpl. unfold ret. f_equal. f_equal.
    induction cs as [|p cs IHcs]; simpl; [reflexivity | f_equal; exact IHcs].
  - cbn [all_map]. unfold bind at 1. rewrite stale_test.
    destruct (is_current n) eqn:Hn; cbn [negb].
    + unfold ret at 1. unfold bind at 1. rewrite IH.
      cbn [ret app map List.filter]. rewrite Hn, app_nil_r. cbn [negb].
      f_equal. f_equal. apply filter_ext. intros p.
      cbn [existsb]. rewrite Hn. reflexivity.
    + unfold bind at 1. rewrite run_caches_delete.
      unfold ret at 1. unfold bind at 1. rewrite IH.
      cbn [ret app map List.filter]. rewrite Hn, app_nil_r. cbn [negb app map].
      f_equal. f_equal. unfold remove_store. rewrite filter_filter_and.
      apply filter_ext. intros p. cbn [existsb]. rewrite Hn, negb_orb.
      reflexivity.
Qed.

Lemma sweep_own_names (cs : CacheStorage) :
  List.filter
    (fun p => negb (existsb (fun n => negb (is_current n) && String.eqb (fst p) n)
                      (store_names cs))) cs
  = List.filter (fun p => is_current (fst p)) cs.
Proof.
  apply filter_ext_in. intros p Hp.
  destruct (is_current (fst p)) eqn:Hc.
  - apply negb_true_iff. apply not_true_iff_false. intros Hex.
    apply existsb_exists in Hex. destruct Hex as [n [_ Hn]].
    apply andb_true_iff in Hn. destruct Hn as [Hstale Heq].
    apply String.eqb_eq in Heq. subst n. rewrite Hc in Hstale. discriminate.
  - apply negb_false_iff. apply existsb_exists. exists (fst p). split.
    + unfold store_names. apply in_map. exact Hp.
    + rewrite Hc, String.eqb_refl. reflexivity.
Qed.

(** What one run of the activate handler does. *)
Lemma run_activate env (cs : CacheStorage) :
  activate env cs
  = (Fulfilled tt,
     List.filter (fun p => is_current (fst p)) cs,
     EvKeys :: map EvDelete (List.filter (fun n => negb (is_current n)) (store_names cs))
       ++ [EvClaim]).
Proof.
  unfold activate. unfold bind at 1.
  replace (caches_keys env cs) with (Fulfilled (store_names cs), cs, [EvKeys])
    by reflexivity.
  unfold bind at 1. rewrite run_sweep. rewrite sweep_own_names.
  reflexivity.
Qed.

Lemma current_cases name :
  is_current name = true <-> name = CACHE_NAME \/ name = RUNTIME_CACHE.
Proof.
  unfold is_current. rewrite orb_true_iff, !String.eqb_eq. reflexivity.
Qed.

(** C8: after the activate handler completes, every cache store whose
    name is neither the current static store name nor the current runtime
    store name has been deleted, and no other store remains: the handler
    fulfils, each remaining name is one of the two current names, each
    stale name present before was deleted and is gone, and the stores of
    the current version are kept as they were. *)
Theorem activate_version_isolation (env : Env) (cs : CacheStorage) :
  let '(o, cs', t) := activate env cs in
  o = Fulfilled tt
  /\ (forall name, In name (store_names cs') ->
        name = CACHE_NAME \/ name = RUNTIME_CACHE)
  /\ (forall name, In name (store_names cs) ->
        name <> CACHE_NAME -> name <> RUNTIME_CACHE ->
        In (EvDelete name) t /\ ~ In name (store_names cs'))
  /\ (forall name c, In (name, c) cs ->
        name = CACHE_NAME \/ name = RUNTIME_CACHE -> In (name, c) cs').
Proof.
  rewrite run_activate. split; [reflexivity|]. split; [|split].
  - intros name Hin. unfold store_names in Hin. apply in_map_iff in Hin.
    destruct Hin as [p [<- Hp]]. apply filter_In in Hp.
    apply current_cases. apply Hp.
  - intros name Hin Hs Hr.
    assert (Hstale : is_current name = false).
    { apply not_true_iff_false. intros Hc. apply current_cases in Hc. tauto. }
    split.
    + right. apply in_or_app. left. apply in_map. apply filter_In.
      rewrite Hstale. split; [exact Hin | reflexivity].
    + intros Hin'. unfold store_names in Hin'. apply in_map_iff in Hin'.
      destruct Hin' as [p [<- Hp]]. apply filter_In in Hp.
      rewrite Hstale in Hp. destruct Hp as [_ Hp]. discriminate.
  - intros name c Hin Hcur. apply filter_In. split; [exact Hin|].
    apply current_cases. exact Hcur.
Qed.

Example activate_after_upgrade :
  let '(_, cs', t) := activate Sample.online Sample.after_upgrade in
  store_names cs' = [CACHE_NAME; RUNTIME_CACHE]
  /\ t = [EvKeys; EvDelete "ai-interior-v0.9.0::static";
          EvDelete "ai-interior-v0.9.0::runtime"; EvClaim].
Proof. vm_compute. split; reflexivity. Qed.

(** C9: running the activate handler twice in succession with the same
    cache version is idempotent: the second run deletes no store (its
    trace has no [caches.delete]) and leaves the cache storage exactly as
    the first run left it. *)
Theorem activate_idempotent (env : Env) (cs : CacheStorage) :
  let '(_, cs1, _) := activate env cs in
  let '(o2, cs2, t2) := activate env cs1 in
  o2 = Fulfilled tt
  /\ cs2 = cs1
  /\ existsb is_store_deletion t2 = false
  /\ t2 = [EvKeys; EvClaim].
Proof.
  rewrite !run_activate.
  assert (Hnone : List.filter (fun n => negb (is_current n))
            (store_names (List.filter (fun p => is_current (fst p)) cs)) = []).
  { induction cs as [|p cs IH]; simpl; [reflexivity|].
    destruct (is_current (fst p)) eqn:Hc; simpl; [rewrite Hc; simpl|]; exact IH. }
  rewrite Hnone. simpl.
  split; [reflexivity|]. split; [|split; reflexivity].
  rewrite filter_filter_and. apply filter_ext. intros p.
  destruct (is_current (fst p)); reflexivity.
Qed.

(** ** The two strategies *)

Section Strategies.
Context (env : Env) (cs : CacheStorage).

(** A hit in the store answers without touching the network. *)
Lemma run_cacheFirst_hit request cacheName cached :
  cached_copy cacheName request cs = Some cached ->
  cacheFirst request cacheName env cs
  = (Fulfilled cached, ensure_store cacheName cs,
     [EvOpen cacheName; EvCacheMatch cacheName request]).
Proof.
  intros Hhit. unfold cacheFirst. unfold bind at 1. rewrite run_caches_open.
  unfold bind at 1. rewrite run_cache_match, cached_copy_ensure, Hhit.
  reflexivity.
Qed.

(** A miss followed by a rejected fetch ends in the catch block. *)
Lemma run_cacheFirst_offline request cacheName :
  cached_copy cacheName request cs = None ->
  network env request = None ->
  cacheFirst request cacheName env cs
  = (Fulfilled
       match store cacheName cs !! cache_key (request_of (location env) OFFLINE_URL) with
       | Some offlinePage => offlinePage
       | None => offline_plain_503
       end,
     ensure_store cacheName cs,
     [EvOpen cacheName; EvCacheMatch cacheName request; EvFetch request;
      EvCacheMatch cacheName (request_of (location env) OFFLINE_URL)]).
Proof.
  intros Hmiss Hnet. unfold cacheFirst. unfold bind at 1. rewrite run_caches_open.
  unfold bind at 1. rewrite run_cache_match, cached_copy_ensure, Hmiss.
  unfold try_catch. unfold bind at 1. rewrite run_fetch.
  unfold network_outcome. rewrite Hnet.
  unfold bind at 1.
  rewrite (run_cache_match_url env _ _ OFFLINE_URL _ (parse_offline_page env)).
  rewrite store_ensure.
  destruct (store cacheName cs !! _); reflexivity.
Qed.

(** A rejected fetch in the network-first strategy ends in its catch
    block, which always produces a response. *)
Lemma run_networkFirst_offline request :
  network env request = None ->
  exists t,
    networkFirst request env cs
    = (Fulfilled
         match cached_copy RUNTIME_CACHE request cs with
         | Some cached => cached
         | None =>
             if String.eqb (req_mode request) "navigate" then
               match storage_lookup (cache_key (request_of (location env) OFFLINE_URL)) cs with
               | Some offlinePage => offlinePage
               | None =>
                   match storage_lookup (cache_key (request_of (location env) "/index.html")) cs with
                   | Some shell => shell
                   | None => offline_503
                   end
               end
             else offline_503
         end,
       ensure_store RUNTIME_CACHE cs,
       [EvOpen RUNTIME_CACHE; EvFetch request] ++ t).
Proof.
  intros Hnet. unfold networkFirst. unfold bind at 1. rewrite run_caches_open.
  unfold try_catch. unfold bind at 1. rewrite run_fetch.
  unfold network_outcome. rewrite Hnet.
  unfold bind at 1. rewrite run_cache_match, cached_copy_ensure.
  destruct (cached_copy RUNTIME_CACHE request cs) as [cached|].
  { eexists. reflexivity. }
  destruct (String.eqb (req_mode request) "navigate").
  - unfold bind at 1. unfold bind at 1.
    rewrite (run_caches_match_url env _ OFFLINE_URL _ (parse_offline_page env)).
    rewrite storage_lookup_ensure.
    destruct (storage_lookup _ cs) as [offlinePage|] eqn:Hoff.
    { eexists. reflexivity. }
    rewrite (run_caches_match_url env _ "/index.html" _ (parse_shell env)).
    rewrite storage_lookup_ensure.
    destruct (storage_lookup _ cs) as [shell|] eqn:Hshell in |- *;
      eexists; reflexivity.
  - eexists. reflexivity.
Qed.

End Strategies.

(** ** The allow-list test reads the origin *)

Lemma prefix_refl (s : string) : String.prefix s s = true.
Proof.
  induction s as [|a s IH]; simpl; [reflexivity|].
  destruct (ascii_dec a a); [exact IH | contradiction].
Qed.

Lemma prefix_app_l (p a b : string) :
  String.prefix p a = true -> String.prefix p (a ++ b)%string = true.
Proof.
  revert a. induction p as [|c p IH]; intros a H.
  - destruct (a ++ b)%string; reflexivity.
  - destruct a as [|d a]; simpl in *; [discriminate|].
    destruct (ascii_dec c d); [apply IH; exact H | discriminate].
Qed.

(** A prefix of a concatenation stops inside the first part or runs on
    into the second. *)
Lemma prefix_app_split (p a b : string) :
  String.prefix p (a ++ b)%string = true ->
  String.prefix p a = true
  \/ exists q, p = (a ++ q)%string /\ String.prefix q b = true.
Proof.
  revert p. induction a as [|d a IH]; intros p H.
  - right. exists p. split; [reflexivity | exact H].
  - destruct p as [|c p]; [left; reflexivity|].
    simpl in H |- *. destruct (ascii_dec c d) as [->|]; [|discriminate].
    destruct (IH p H) as [Hl | [q [-> Hq]]].
    + left. exact Hl.
    + right. exists q. split; [reflexivity | exact Hq].
Qed.

Lemma append_cons a (s t : string) : (String a s ++ t)%string = String a (s ++ t).
Proof. reflexivity. Qed.

Lemma append_empty_r (s : string) : (s ++ "")%string = s.
Proof.
  induction s as [|a s IH]; [reflexivity|]. rewrite append_cons, IH. reflexivity.
Qed.

Lemma occurrences_app c (a b : string) :
  occurrences c (a ++ b)%string = occurrences c a + occurrences c b.
Proof.
  induction a as [|d a IH]; simpl; [reflexivity|]. rewrite IH. lia.
Qed.

Lemma origin_slashes (u : URL) : 2 <= occurrences "/" (origin u).
Proof.
  unfold origin. rewrite !occurrences_app. simpl. lia.
Qed.

(** An allow-list entry with no slash besides the two after its scheme
    is a prefix of the whole URL exactly when it is a prefix of the
    origin: the path starts with a third slash. *)
Lemma startsWith_href_origin (u : URL) (allowed : string) :
  occurrences "/" allowed <= 2 ->
  startsWith (href u) allowed = startsWith (origin u) allowed.
Proof.
  intros Hocc. unfold startsWith, href.
  destruct (String.prefix allowed (origin u)) eqn:Ho.
  - apply prefix_app_l. exact Ho.
  - apply not_true_iff_false. intros Hh.
    apply prefix_app_split in Hh. destruct Hh as [Hl | [q [Hp Hq]]].
    + congruence.
    + unfold pathname in Hq. destruct q as [|c q].
      * rewrite Hp, append_empty_r, prefix_refl in Ho. discriminate.
      * simpl in Hq. destruct (ascii_dec c "/") as [->|]; [|discriminate].
        pose proof (origin_slashes u) as H2.
        rewrite Hp, occurrences_app in Hocc. simpl in Hocc. lia.
Qed.

Lemma shouldCacheExternal_origin (u : URL) :
  shouldCacheExternal u = origin_allow_listed u.
Proof.
  unfold shouldCacheExternal, origin_allow_listed, RUNTIME_CACHE_URLS.
  cbn [existsb].
  rewrite !startsWith_href_origin by (vm_compute; lia).
  reflexivity.
Qed.

(** ** Routing of fetch events *)

(** The prefix test also accepts a host that merely begins like an
    allow-listed one. *)
Example lookalike_host_is_allow_listed :
  shouldCacheExternal (mkURL "https:" "fonts.gstatic.com.mirror.example" "a.woff2") = true.
Proof. reflexivity. Qed.

Lemma onfetch_cross_origin loc request :
  origin (req_url request) <> origin loc ->
  onfetch loc request
  = if shouldCacheExternal (req_url request)
    then Some (cacheFirst request RUNTIME_CACHE) else None.
Proof.
  intros H. unfold onfetch. apply String.eqb_neq in H. rewrite H. reflexivity.
Qed.

Lemma onfetch_same_origin loc request :
  origin (req_url request) = origin loc ->
  onfetch loc request
  = if includes (href (req_url request)) "/api/" then Some (networkFirst request)
    else if negb (String.eqb (req_method request) "GET") then Some (fetch request)
    else if String.eqb (req_mode request) "navigate" then Some (networkFirst request)
    else Some (cacheFirst request CACHE_NAME).
Proof.
  intros H. unfold onfetch. apply String.eqb_eq in H. rewrite H. reflexivity.
Qed.

(** ** Cross-origin requests *)

(** C4: for every cross-origin request the fetch handler calls
    [respondWith] if and only if the request's origin matches the
    allow-list of external hosts (an allow-listed origin prefix starts
    it); a matching request is served by the cache-first strategy against
    the runtime store; a non-matching one gets no [respondWith], no
    platform call is made for it and the cache storage is left as it was. *)
Theorem cross_origin_interception (env : Env) (request : Request) (cs : CacheStorage) :
  origin (req_url request) <> origin (location env) ->
  (onfetch (location env) request <> None
     <-> origin_allow_listed (req_url request) = true)
  /\ (origin_allow_listed (req_url request) = true ->
        onfetch (location env) request = Some (cacheFirst request RUNTIME_CACHE)
        /\ dispatch_fetch env request cs
           = (let '(o, cs', t) := cacheFirst request RUNTIME_CACHE env cs in
              (Some o, cs', t)))
  /\ (origin_allow_listed (req_url request) = false ->
        dispatch_fetch env request cs = (None, cs, [])).
Proof.
  intros Hcross. unfold dispatch_fetch.
  rewrite (onfetch_cross_origin _ _ Hcross), shouldCacheExternal_origin.
  destruct (origin_allow_listed (req_url request)).
  - split; [split; [reflexivity | discriminate]|].
    split; [intros _; split; reflexivity | discriminate].
  - split; [split; [congruence | discriminate]|].
    split; [discriminate | reflexivity].
Qed.

Lemma cross_origin_interception_witness :
  origin (req_url Sample.get_font) <> origin (location Sample.online)
  /\ origin_allow_listed (req_url Sample.get_font) = true
  /\ onfetch (location Sample.online) Sample.get_font
     = Some (cacheFirst Sample.get_font RUNTIME_CACHE)
  /\ dispatch_fetch Sample.online Sample.get_tracker Sample.warm
     = (None, Sample.warm, []).
Proof.
  assert (Hfont : origin (req_url Sample.get_font) <> origin (location Sample.online))
    by (vm_compute; discriminate).
  assert (Htracker : origin (req_url Sample.get_tracker) <> origin (location Sample.online))
    by (vm_compute; discriminate).
  split; [exact Hfont|]. split; [reflexivity|]. split.
  - apply (cross_origin_interception Sample.online Sample.get_font Sample.warm Hfont).
    reflexivity.
  - apply (cross_origin_interception Sample.online Sample.get_tracker Sample.warm Htracker).
    reflexivity.
Defined.

(** ** Cache-first *)

(** C5: for every same-origin GET request that is neither a navigation
    nor an API request and whose URL has an entry in the static store, the
    fetch handler answers with that cached response and performs no
    network fetch; the cache storage is left as it was. *)
Theorem cache_first_hit_no_network (env : Env) (request : Request)
    (cs : CacheStorage) (cached : Response) :
  origin (req_url request) = origin (location env) ->
  req_method request = "GET" ->
  req_mode request <> "navigate" ->
  includes (href (req_url request)) "/api/" = false ->
  store CACHE_NAME cs !! cache_key request = Some cached ->
  let '(o, cs', t) := dispatch_fetch env request cs in
  o = Some (Fulfilled cached)
  /\ cs' = cs
  /\ existsb is_network_fetch t = false.
Proof.
  intros Horigin Hget Hmode Hapi Hhit. unfold dispatch_fetch.
  rewrite (onfetch_same_origin _ _ Horigin), Hapi, Hget.
  change (negb (String.eqb "GET" "GET")) with false. cbv iota.
  apply String.eqb_neq in Hmode. rewrite Hmode.
  rewrite (run_cacheFirst_hit env cs request CACHE_NAME cached).
  - rewrite (ensure_store_present _ _ (store_hit_has_store _ _ _ _ Hhit)).
    split; [reflexivity|]. split; reflexivity.
  - unfold cached_copy, is_GET. rewrite Hget. exact Hhit.
Qed.

Lemma cache_first_hit_no_network_witness :
  let '(o, cs', t) := dispatch_fetch Sample.offline Sample.get_logo Sample.warm in
  o = Some (Fulfilled (Sample.page "PNG"))
  /\ cs' = Sample.warm
  /\ existsb is_network_fetch t = false.
Proof.
  apply (cache_first_hit_no_network Sample.offline Sample.get_logo Sample.warm
           (Sample.page "PNG")).
  - reflexivity.
  - reflexivity.
  - vm_compute. discriminate.
  - reflexivity.
  - vm_compute. reflexivity.
Defined.

(** C7: whenever the cache-first strategy misses the store and the
    network fetch throws, it fulfils (nothing is thrown to the page) with
    the offline page of the store it was given when that store holds one,
    and otherwise with the synthetic 503 plain-text response. *)
Theorem cache_first_offline_fallback (env : Env) (request : Request)
    (cacheName : string) (cs : CacheStorage) :
  cached_copy cacheName request cs = None ->
  network env request = None ->
  let '(o, _, _) := cacheFirst request cacheName env cs in
  o = Fulfilled
        match store cacheName cs !! cache_key (request_of (location env) "/offline.html") with
        | Some offlinePage => offlinePage
        | None =>
            mkResponse 503 "Service Unavailable" [("Content-Type", "text/plain")]
              "Offline - Content not available"
        end.
Proof.
  intros Hmiss Hnet. rewrite (run_cacheFirst_offline env cs _ _ Hmiss Hnet).
  reflexivity.
Qed.

Lemma cache_first_offline_fallback_witness :
  (let '(o, _, _) := cacheFirst Sample.get_font CACHE_NAME Sample.offline Sample.warm in
   o = Fulfilled (Sample.page "You are offline"))
  /\ (let '(o, _, _) := cacheFirst Sample.get_font RUNTIME_CACHE Sample.offline Sample.warm in
      o = Fulfilled
            (mkResponse 503 "Service Unavailable" [("Content-Type", "text/plain")]
               "Offline - Content not available")).
Proof.
  split.
  - apply (cache_first_offline_fallback Sample.offline Sample.get_font CACHE_NAME Sample.warm);
      vm_compute; reflexivity.
  - apply (cache_first_offline_fallback Sample.offline Sample.get_font RUNTIME_CACHE Sample.warm);
      vm_compute; reflexivity.
Defined.

(** C10: the cache-first strategy looks for the offline page only in the
    store it was invoked with. For an allow-listed cross-origin request,
    served against the runtime store, whose fetch throws while the runtime
    store holds neither the request nor '/offline.html', the answer is the
    synthetic 503 plain-text response whatever the static store holds, and
    no platform call of the event touches the static store. *)
Theorem cross_origin_offline_ignores_static (env : Env) (request : Request)
    (cs : CacheStorage) :
  origin (req_url request) <> origin (location env) ->
  shouldCacheExternal (req_url request) = true ->
  network env request = None ->
  cached_copy RUNTIME_CACHE request cs = None ->
  store RUNTIME_CACHE cs !! cache_key (request_of (location env) "/offline.html") = None ->
  let '(o, _, t) := dispatch_fetch env request cs in
  o = Some (Fulfilled
              (mkResponse 503 "Service Unavailable" [("Content-Type", "text/plain")]
                 "Offline - Content not available"))
  /\ existsb (touches_store CACHE_NAME) t = false.
Proof.
  intros Hcross Hallowed Hnet Hmiss Hoff. unfold dispatch_fetch.
  rewrite (onfetch_cross_origin _ _ Hcross), Hallowed.
  rewrite (run_cacheFirst_offline env cs _ _ Hmiss Hnet).
  change OFFLINE_URL with "/offline.html". rewrite Hoff.
  split; reflexivity.
Qed.

Lemma cross_origin_offline_ignores_static_witness :
  store CACHE_NAME Sample.warm !! Sample.offline_key = Some (Sample.page "You are offline")
  /\ (let '(o, _, t) := dispatch_fetch Sample.offline Sample.get_font Sample.warm in
      o = Some (Fulfilled
                  (mkResponse 503 "Service Unavailable" [("Content-Type", "text/plain")]
                     "Offline - Content not available"))
      /\ existsb (touches_store CACHE_NAME) t = false).
Proof.
  split; [vm_compute; reflexivity|].
  apply (cross_origin_offline_ignores_static Sample.offline Sample.get_font Sample.warm).
  - vm_compute. discriminate.
  - reflexivity.
  - reflexivity.
  - vm_compute. reflexivity.
  - vm_compute. reflexivity.
Defined.

(** ** Network-first *)

(** C6: for every navigation request whose network fetch rejects, the
    network-first strategy fulfils (the exception never escapes) with, in
    order of preference, the runtime store's copy of the same request,
    else the cached offline page, else the cached shell document, else the
    synthetic 503 response. *)
Theorem network_first_navigation_fallback (env : Env) (request : Request)
    (cs : CacheStorage) :
  req_mode request = "navigate" ->
  network env request = None ->
  let '(o, _, _) := networkFirst request env cs in
  o = Fulfilled
        match cached_copy RUNTIME_CACHE request cs with
        | Some cached => cached
        | None =>
            match storage_lookup (cache_key (request_of (location env) "/offline.html")) cs with
            | Some offlinePage => offlinePage
            | None =>
                match storage_lookup (cache_key (request_of (location env) "/index.html")) cs with
                | Some shell => shell
                | None =>
                    mkResponse 503 "Service Unavailable"
                      [("content-type", "text/plain;charset=UTF-8")] "Offline"
                end
            end
        end.
Proof.
  intros Hmode Hnet.
  destruct (run_networkFirst_offline env cs request Hnet) as [t ->].
  rewrite Hmode. reflexivity.
Qed.

Lemma network_first_navigation_fallback_witness :
  (let '(o, _, _) := networkFirst Sample.navigate_home Sample.offline Sample.warm in
   o = Fulfilled (Sample.page "You are offline"))
  /\ (let '(o, _, _) := networkFirst Sample.navigate_home Sample.offline [] in
      o = Fulfilled
            (mkResponse 503 "Service Unavailable"
               [("content-type", "text/plain;charset=UTF-8")] "Offline")).
Proof.
  split.
  - apply (network_first_navigation_fallback Sample.offline Sample.navigate_home Sample.warm);
      reflexivity.
  - apply (network_first_navigation_fallback Sample.offline Sample.navigate_home []);
      reflexivity.
Defined.

(** ** Requests other than GET *)

Section OtherMethods.
Context (env : Env) (cs : CacheStorage) (request : Request).
Hypothesis Hother : is_GET request = false.

Lemma cached_copy_other name : cached_copy name request cs = None.
Proof. unfold cached_copy. rewrite Hother. reflexivity. Qed.

(** The write-through of a fetched response is refused by the store. *)
Lemma run_write_through_other cache (response : Response) (cs1 : CacheStorage) :
  exists t,
    (if ok response then detached (cache_put cache request response) else ret tt)
      env cs1
    = (Fulfilled tt, cs1, t).
Proof.
  destruct (ok response).
  - unfold detached. rewrite (run_cache_put_other env cs1 _ _ _ Hother).
    eexists. reflexivity.
  - eexists. reflexivity.
Qed.

Lemma run_cacheFirst_other cacheName :
  exists o t, cacheFirst request cacheName env cs = (o, ensure_store cacheName cs, t).
Proof.
  destruct (network env request) as [response|] eqn:Hnet.
  - unfold cacheFirst. unfold bind at 1. rewrite run_caches_open.
    unfold bind at 1. rewrite run_cache_match, cached_copy_ensure, cached_copy_other.
    unfold try_catch. unfold bind at 1. rewrite run_fetch.
    unfold network_outcome. rewrite Hnet. unfold bind at 1.
    destruct (run_write_through_other cacheName response (ensure_store cacheName cs))
      as [t ->].
    do 2 eexists. reflexivity.
  - rewrite (run_cacheFirst_offline env cs _ _ (cached_copy_other cacheName) Hnet).
    do 2 eexists. reflexivity.
Qed.

Lemma run_networkFirst_other :
  exists o t, networkFirst request env cs = (o, ensure_store RUNTIME_CACHE cs, t).
Proof.
  destruct (network env request) as [response|] eqn:Hnet.
  - unfold networkFirst. unfold bind at 1. rewrite run_caches_open.
    unfold try_catch. unfold bind at 1. rewrite run_fetch.
    unfold network_outcome. rewrite Hnet. unfold bind at 1.
    destruct (run_write_through_other RUNTIME_CACHE response (ensure_store RUNTIME_CACHE cs))
      as [t ->].
    do 2 eexists. reflexivity.
  - destruct (run_networkFirst_offline env cs request Hnet) as [t ->].
    do 2 eexists. reflexivity.
Qed.

End OtherMethods.

(** X19: what holds of the pass-through of requests other than GET. No
    such request ever changes the entries of a cache store. One that is
    same-origin with a URL that does not contain '/api/' is passed
    straight to the network, with no cache lookup and no cache write: the
    only platform call is the fetch, whose settlement is the answer. One
    that is cross-origin and not allow-listed gets no [respondWith] and
    no platform call at all. *)
Theorem non_get_passthrough (env : Env) (request : Request) (cs : CacheStorage) :
  req_method request <> "GET" ->
  let '(o, cs', t) := dispatch_fetch env request cs in
  (forall name, store name cs' = store name cs)
  /\ (origin (req_url request) = origin (location env) ->
      includes (href (req_url request)) "/api/" = false ->
      o = Some (network_outcome env request) /\ cs' = cs /\ t = [EvFetch request])
  /\ (origin (req_url request) <> origin (location env) ->
      shouldCacheExternal (req_url request) = false ->
      o = None /\ cs' = cs /\ t = []).
Proof.
  intros Hmethod.
  assert (Hother : is_GET request = false) by (apply String.eqb_neq; exact Hmethod).
  unfold dispatch_fetch.
  destruct (String.eqb (origin (req_url request)) (origin (location env))) eqn:Ho.
  - apply String.eqb_eq in Ho. rewrite (onfetch_same_origin _ _ Ho).
    destruct (includes (href (req_url request)) "/api/").
    + destruct (run_networkFirst_other env cs request Hother) as [o [t ->]].
      split; [intros name; apply store_ensure|]. split; [discriminate|].
      intros Hne. contradiction.
    + unfold is_GET in Hother. rewrite Hother. cbn [negb]. rewrite run_fetch.
      split; [reflexivity|]. split.
      * intros _ _. split; [reflexivity|]. split; reflexivity.
      * intros Hne. contradiction.
  - apply String.eqb_neq in Ho. rewrite (onfetch_cross_origin _ _ Ho).
    destruct (shouldCacheExternal (req_url request)).
    + destruct (run_cacheFirst_other env cs request Hother RUNTIME_CACHE) as [o [t ->]].
      split; [intros name; apply store_ensure|]. split; [congruence | discriminate].
    + split; [reflexivity|]. split; [congruence|].
      intros _ _. split; [reflexivity|]. split; reflexivity.
Qed.

Lemma non_get_passthrough_witness :
  let '(o, cs', t) := dispatch_fetch Sample.online Sample.post_form Sample.warm in
  (forall name, store name cs' = store name Sample.warm)
  /\ (origin (req_url Sample.post_form) = origin (location Sample.online) ->
      includes (href (req_url Sample.post_form)) "/api/" = false ->
      o = Some (network_outcome Sample.online Sample.post_form)
      /\ cs' = Sample.warm /\ t = [EvFetch Sample.post_form])
  /\ (origin (req_url Sample.post_form) <> origin (location Sample.online) ->
      shouldCacheExternal (req_url Sample.post_form) = false ->
      o = None /\ cs' = Sample.warm /\ t = []).
Proof.
  apply (non_get_passthrough Sample.online Sample.post_form Sample.warm).
  vm_compute. discriminate.
Defined.

(** C2 fails on the script: the test for '/api/' comes before the test of
    the method, so the POST of the contact form to '/api/contact.php', the
    endpoint the form handler of the site is configured with, never
    reaches the branch that handles form submissions. It is served
    network-first: while offline it is looked up in the runtime store and
    answered with the synthetic 503, and while online [cache.put] is
    called for it, which the store refuses for a POST (nothing is stored,
    the rejection is not handled). *)
Theorem post_to_api_consults_cache :
  req_method Scenario.post_contact = "POST"
  /\ (let '(o, _, t) := dispatch_fetch Sample.offline Scenario.post_contact [] in
      o = Some (Fulfilled offline_503)
      /\ existsb is_cache_lookup t = true
      /\ t = [EvOpen RUNTIME_CACHE; EvFetch Scenario.post_contact;
              EvCacheMatch RUNTIME_CACHE Scenario.post_contact])
  /\ (let '(_, cs', t) := dispatch_fetch Sample.online Scenario.post_contact [] in
      existsb is_cache_write t = true
      /\ t = [EvOpen RUNTIME_CACHE; EvFetch Scenario.post_contact;
              EvCachePut RUNTIME_CACHE Scenario.post_contact]
      /\ cs' = [(RUNTIME_CACHE, ∅)]).
Proof.
  split; [reflexivity|]. split.
  - vm_compute. repeat split; reflexivity.
  - vm_compute. repeat split; reflexivity.
Qed.

(** ** Installation *)

(** Every string of the precache list is a path of the site. *)
Lemma precache_parse loc u :
  In u PRECACHE_ASSETS ->
  exists p, u = String "/" p
            /\ parse_plain loc u = Some (mkURL (protocol loc) (host loc) p).
Proof.
  unfold PRECACHE_ASSETS. cbn [In]. intros Hin.
  repeat (destruct Hin as [<-|Hin]; [eexists; split; reflexivity|]).
  destruct Hin.
Qed.

Lemma precache_request env u :
  In u PRECACHE_ASSETS -> new_Request env u = Some (request_of (location env) u).
Proof.
  intros Hin. destruct (precache_parse (location env) u Hin) as [p [_ Hp]].
  exact (new_Request_plain env u _ Hp).
Qed.

Lemma precache_fetch_fails env u :
  In u PRECACHE_ASSETS -> fetch_fails env u = true -> url_fetch_fails env u = true.
Proof.
  intros Hin Hfail. unfold url_fetch_fails. rewrite (precache_request env u Hin).
  exact Hfail.
Qed.

(** The batch of [addAll] only talks to the network; one failing URL
    rejects it. *)
Lemma run_fetch_batch_fail (urls : list string) env (cs : CacheStorage) u :
  In u urls -> url_fetch_fails env u = true ->
  exists e t,
    fetch_batch urls env cs = (Rejected e, cs, t)
    /\ forallb is_network_fetch t = true.
Proof.
  induction urls as [|v rest IH]; intros Hin Hfail; [destruct Hin|].
  cbn [fetch_batch]. unfold bind at 1. cbn [ask].
  destruct (new_Request env v) as [request|] eqn:Hreq;
    [|do 2 eexists; split; reflexivity].
  destruct (web_scheme (protocol (req_url request)));
    [|do 2 eexists; split; reflexivity].
  unfold bind at 1. rewrite run_fetch. unfold network_outcome.
  destruct (network env request) as [response|] eqn:Hnet;
    [|do 2 eexists; split; reflexivity].
  destruct (ok response) eqn:Hok; [|do 2 eexists; split; reflexivity].
  destruct (storable response); cbn [andb]; [|do 2 eexists; split; reflexivity].
  assert (Hrest : In u rest).
  { destruct Hin as [->|Hin]; [|exact Hin].
    unfold url_fetch_fails in Hfail. rewrite Hreq, Hnet, Hok in Hfail. discriminate. }
  destruct (IH Hrest Hfail) as [e [t [Hrun Ht]]].
  unfold bind at 1. rewrite Hrun.
  exists e, (EvFetch request :: t). split; [reflexivity | exact Ht].
Qed.

Lemma fetches_never_skip_waiting (t : list Event) :
  forallb is_network_fetch t = true -> existsb is_skip_waiting t = false.
Proof.
  induction t as [|e t IH]; simpl; [reflexivity|].
  destruct e; simpl; try discriminate. exact IH.
Qed.

(** What the install handler does when one URL of the list fails. *)
Lemma run_install_fail env (cs : CacheStorage) u :
  In u PRECACHE_ASSETS -> fetch_fails env u = true ->
  exists t,
    install env cs = (Fulfilled tt, ensure_store CACHE_NAME cs, t)
    /\ existsb is_skip_waiting t = false.
Proof.
  intros Hin Hfail. apply (precache_fetch_fails env u Hin) in Hfail.
  unfold install, try_catch.
  unfold bind at 1. rewrite run_caches_open.
  unfold bind at 1. unfold cache_addAll. unfold bind at 1. cbn [emit].
  unfold bind at 1.
  destruct (run_fetch_batch_fail PRECACHE_ASSETS env (ensure_store CACHE_NAME cs) u Hin Hfail)
    as [e [t [-> Ht]]].
  cbn [ret]. eexists. split; [reflexivity|].
  rewrite app_nil_r. cbn [app existsb is_skip_waiting orb].
  apply fetches_never_skip_waiting. exact Ht.
Qed.

(** X20: the precache batch is all-or-nothing. When the fetch of any URL
    of the precache list fails (a status that is not a success, or a
    throw), the install writes nothing: every store holds what it held
    before, so the static store has zero entries afterwards when it had
    none before, and skip-waiting is not signalled. *)
Theorem install_failure_no_partial_commit (env : Env) (cs : CacheStorage) (u : string) :
  In u PRECACHE_ASSETS ->
  fetch_fails env u = true ->
  let '(_, cs', t) := install env cs in
  (forall name, store name cs' = store name cs)
  /\ (store CACHE_NAME cs = ∅ -> store CACHE_NAME cs' = ∅)
  /\ existsb is_skip_waiting t = false.
Proof.
  intros Hin Hfail. destruct (run_install_fail env cs u Hin Hfail) as [t [-> Ht]].
  split; [|split].
  - intros name. apply store_ensure.
  - intros Hempty. rewrite store_ensure. exact Hempty.
  - exact Ht.
Qed.

Lemma install_failure_no_partial_commit_witness :
  let '(_, cs', t) := install Sample.css_missing [] in
  (forall name, store name cs' = store name [])
  /\ (store CACHE_NAME [] = ∅ -> store CACHE_NAME cs' = ∅)
  /\ existsb is_skip_waiting t = false.
Proof.
  apply (install_failure_no_partial_commit Sample.css_missing [] "/assets/css/main.css").
  - vm_compute. right. right. left. reflexivity.
  - vm_compute. reflexivity.
Defined.

(** C1 fails on the script: with one stylesheet of the precache list
    answering 404, the handler logs 'Installation failed' but its [catch]
    does not throw again, so the promise given to the install event is
    fulfilled, not rejected: the browser takes the install for a success
    although the static store is empty. *)
Theorem install_failure_is_swallowed :
  In "/assets/css/main.css" PRECACHE_ASSETS
  /\ fetch_fails Sample.css_missing "/assets/css/main.css" = true
  /\ (let '(o, cs', _) := install Sample.css_missing [] in
      o = Fulfilled tt
      /\ (forall e, o <> Rejected e)
      /\ cs' = [(CACHE_NAME, ∅)]).
Proof.
  split; [vm_compute; right; right; left; reflexivity|].
  split; [vm_compute; reflexivity|].
  vm_compute. split; [reflexivity|]. split; [discriminate | reflexivity].
Qed.

(** C3 fails on the script: '/offline.html' is not in the precache list,
    and after an install in which every precache URL answered 200 (all 22
    entries are written and skip-waiting is signalled) the static store
    holds no offline page, nor does any other store. *)
Theorem offline_page_not_precached :
  existsb (String.eqb OFFLINE_URL) PRECACHE_ASSETS = false
  /\ ~ In "/offline.html" PRECACHE_ASSETS
  /\ (let '(o, cs', t) := install Sample.online [] in
      o = Fulfilled tt
      /\ existsb is_skip_waiting t = true
      /\ size (store CACHE_NAME cs') = 22
      /\ store CACHE_NAME cs' !! cache_key (request_of Sample.site "/offline.html") = None
      /\ storage_lookup (cache_key (request_of Sample.site "/offline.html")) cs' = None).
Proof.
  split; [reflexivity|]. split.
  - intros Hin.
    assert (Hex : existsb (String.eqb OFFLINE_URL) PRECACHE_ASSETS = true).
    { apply existsb_exists. exists "/offline.html". split; [exact Hin | reflexivity]. }
    vm_compute in Hex. discriminate.
  - vm_compute. repeat split; reflexivity.
Qed.

(** * Further properties of the script *)

(** ** More facts about the storage *)

Lemma has_store_ensure name (cs : CacheStorage) :
  has_store name (ensure_store name cs) = true.
Proof.
  unfold ensure_store. destruct (has_store name cs) eqn:H; [exact H|].
  unfold has_store. rewrite existsb_app. simpl.
  rewrite String.eqb_refl, orb_true_r. reflexivity.
Qed.

(** A write into an opened store changes that store and no other. *)
Lemma store_written name n f (cs : CacheStorage) :
  store n (update_store name f (ensure_store name cs))
  = if String.eqb n name then f (store n cs) else store n cs.
Proof.
  rewrite store_update, has_store_ensure, andb_true_r, store_ensure. reflexivity.
Qed.


Lemma store_names_update name f (cs : CacheStorage) :
  store_names (update_store name f cs) = store_names cs.
Proof.
  unfold store_names, update_store. rewrite map_map. apply map_ext.
  intros p. destruct (String.eqb (fst p) name); reflexivity.
Qed.

Lemma store_names_ensure name (cs : CacheStorage) :
  incl (store_names (ensure_store name cs)) (name :: store_names cs).
Proof.
  unfold ensure_store. destruct (has_store name cs).
  - apply incl_tl, incl_refl.
  - unfold store_names. rewrite map_app. simpl. intros n Hn.
    apply in_app_or in Hn. destruct Hn as [Hn | [<- | []]];
      [right; exact Hn | left; reflexivity].
Qed.

(** ** The strategies while the network answers *)

Section Online.
Context (env : Env) (cs : CacheStorage).

(** The write-through after a fetch: only an ok, storable response to a
    GET request over http or https ends up in the store. *)
Lemma run_write_through cache request response (cs1 : CacheStorage) :
  (if ok response then detached (cache_put cache request response) else ret tt)
    env cs1
  = (Fulfilled tt,
     if written_through request response
     then update_store cache (fun c => <[cache_key request := response]> c) cs1
     else cs1,
     if ok response then [EvCachePut cache request] else []).
Proof.
  unfold written_through. destruct (ok response); [|reflexivity].
  unfold detached. destruct (run_cache_put env cs1 cache request response) as [o ->].
  reflexivity.
Qed.

Lemma run_cacheFirst_online request cacheName response :
  cached_copy cacheName request cs = None ->
  network env request = Some response ->
  cacheFirst request cacheName env cs
  = (Fulfilled response,
     if written_through request response
     then update_store cacheName (fun c => <[cache_key request := response]> c)
            (ensure_store cacheName cs)
     else ensure_store cacheName cs,
     [EvOpen cacheName; EvCacheMatch cacheName request; EvFetch request]
       ++ (if ok response then [EvCachePut cacheName request] else [])).
Proof.
  intros Hmiss Hnet. unfold cacheFirst. unfold bind at 1. rewrite run_caches_open.
  unfold bind at 1. rewrite run_cache_match, cached_copy_ensure, Hmiss.
  unfold try_catch. unfold bind at 1. rewrite run_fetch.
  unfold network_outcome. rewrite Hnet. unfold bind at 1.
  rewrite run_write_through. cbn [ret]. rewrite app_nil_r. reflexivity.
Qed.

Lemma run_networkFirst_online request response :
  network env request = Some response ->
  networkFirst request env cs
  = (Fulfilled response,
     if written_through request response
     then update_store RUNTIME_CACHE (fun c => <[cache_key request := response]> c)
            (ensure_store RUNTIME_CACHE cs)
     else ensure_store RUNTIME_CACHE cs,
     [EvOpen RUNTIME_CACHE; EvFetch request]
       ++ (if ok response then [EvCachePut RUNTIME_CACHE request] else [])).
Proof.
  intros Hnet. unfold networkFirst. unfold bind at 1. rewrite run_caches_open.
  unfold try_catch. unfold bind at 1. rewrite run_fetch.
  unfold network_outcome. rewrite Hnet. unfold bind at 1.
  rewrite run_write_through. cbn [ret]. rewrite app_nil_r. reflexivity.
Qed.

End Online.





(** X2: an error response is passed through by the cache-first strategy
    and never stored. After a miss answered by the network with a response
    that is not ok, the strategy returns that very response (not the
    offline page, not the synthetic 503), calls no [cache.put], and every
    store holds what it held before. *)
Theorem cache_first_error_response_not_stored (env : Env) (request : Request)
    (cacheName : string) (cs : CacheStorage) (response : Response) :
  cached_copy cacheName request cs = None ->
  network env request = Some response ->
  ok response = false ->
  let '(o, cs', t) := cacheFirst request cacheName env cs in
  o = Fulfilled response
  /\ (forall name, store name cs' = store name cs)
  /\ t = [EvOpen cacheName; EvCacheMatch cacheName request; EvFetch request].
Proof.
  intros Hmiss Hnet Hok.
  rewrite (run_cacheFirst_online env cs _ _ _ Hmiss Hnet). unfold written_through.
  rewrite Hok. cbn [andb].
  split; [reflexivity|]. split; [|reflexivity].
  intros name. apply store_ensure.
Qed.

Lemma cache_first_error_response_not_stored_witness :
  let '(o, cs', t) := cacheFirst Sample.get_logo CACHE_NAME Scenario.broken [] in
  o = Fulfilled (mkResponse 500 "Internal Server Error" [] "oops")
  /\ (forall name, store name cs' = store name [])
  /\ t = [EvOpen CACHE_NAME; EvCacheMatch CACHE_NAME Sample.get_logo;
          EvFetch Sample.get_logo].
Proof.
  apply (cache_first_error_response_not_stored Scenario.broken Sample.get_logo
           CACHE_NAME []); reflexivity.
Defined.



(** X4: the network-first strategy never falls back on an answered
    request. When the network answers with a response that is not ok, the
    strategy returns that response even if the runtime store holds a copy
    of the request; it makes no cache lookup and no write, and every store
    holds what it held before. *)
Theorem network_first_error_response_wins (env : Env) (request : Request)
    (cs : CacheStorage) (response : Response) :
  network env request = Some response ->
  ok response = false ->
  let '(o, cs', t) := networkFirst request env cs in
  o = Fulfilled response
  /\ (forall name, store name cs' = store name cs)
  /\ t = [EvOpen RUNTIME_CACHE; EvFetch request].
Proof.
  intros Hnet Hok.
  rewrite (run_networkFirst_online env cs _ _ Hnet). unfold written_through.
  rewrite Hok. cbn [andb].
  split; [reflexivity|]. split; [|reflexivity].
  intros name. apply store_ensure.
Qed.

Lemma network_first_error_response_wins_witness :
  cached_copy RUNTIME_CACHE Scenario.get_api
    [(RUNTIME_CACHE, {[ "https://interior.example/api/quotes" := Sample.page "quotes" ]})]
  = Some (Sample.page "quotes")
  /\ (let '(o, cs', t) :=
        networkFirst Scenario.get_api Scenario.broken
          [(RUNTIME_CACHE, {[ "https://interior.example/api/quotes" := Sample.page "quotes" ]})] in
      o = Fulfilled (mkResponse 500 "Internal Server Error" [] "oops")
      /\ (forall name,
            store name cs'
            = store name
                [(RUNTIME_CACHE,
                  {[ "https://interior.example/api/quotes" := Sample.page "quotes" ]})])
      /\ t = [EvOpen RUNTIME_CACHE; EvFetch Scenario.get_api]).
Proof.
  split; [vm_compute; reflexivity|].
  apply (network_first_error_response_wins Scenario.broken Scenario.get_api);
    reflexivity.
Defined.

(** X5: requests that are not navigations get no page as a fallback.
    When the fetch of such a request rejects and the runtime store has no
    copy, the network-first strategy answers with the synthetic 503
    'Offline' response without calling [caches.match]: neither the offline
    page nor the shell is looked up, whatever the stores hold. *)
Theorem network_first_subresource_offline (env : Env) (request : Request)
    (cs : CacheStorage) :
  req_mode request <> "navigate" ->
  network env request = None ->
  cached_copy RUNTIME_CACHE request cs = None ->
  let '(o, _, t) := networkFirst request env cs in
  o = Fulfilled
        (mkResponse 503 "Service Unavailable"
           [("content-type", "text/plain;charset=UTF-8")] "Offline")
  /\ t = [EvOpen RUNTIME_CACHE; EvFetch request; EvCacheMatch RUNTIME_CACHE request].
Proof.
  intros Hmode Hnet Hmiss. apply String.eqb_neq in Hmode.
  unfold networkFirst. unfold bind at 1. rewrite run_caches_open.
  unfold try_catch. unfold bind at 1. rewrite run_fetch.
  unfold network_outcome. rewrite Hnet.
  unfold bind at 1. rewrite run_cache_match, cached_copy_ensure, Hmiss, Hmode.
  split; reflexivity.
Qed.

Lemma network_first_subresource_offline_witness :
  storage_lookup Sample.offline_key Sample.warm = Some (Sample.page "You are offline")
  /\ (let '(o, _, t) := networkFirst Scenario.get_api Sample.offline Sample.warm in
      o = Fulfilled
            (mkResponse 503 "Service Unavailable"
               [("content-type", "text/plain;charset=UTF-8")] "Offline")
      /\ t = [EvOpen RUNTIME_CACHE; EvFetch Scenario.get_api;
              EvCacheMatch RUNTIME_CACHE Scenario.get_api]).
Proof.
  split; [vm_compute; reflexivity|].
  apply (network_first_subresource_offline Sample.offline Scenario.get_api Sample.warm).
  - vm_compute. discriminate.
  - reflexivity.
  - vm_compute. reflexivity.
Defined.

(** ** What a fetch event can do *)

(** Either strategy always settles with a response, and leaves the
    storage opened, with at most the request's own entry written. *)
Lemma cacheFirst_effect env (cs : CacheStorage) request cacheName :
  exists r cs' t,
    cacheFirst request cacheName env cs = (Fulfilled r, cs', t)
    /\ (cs' = ensure_store cacheName cs
        \/ exists response,
             network env request = Some response /\ ok response = true
             /\ is_GET request = true
             /\ cs' = update_store cacheName
                        (fun c => <[cache_key request := response]> c)
                        (ensure_store cacheName cs)).
Proof.
  destruct (cached_copy cacheName request cs) as [cached|] eqn:Hcopy.
  { rewrite (run_cacheFirst_hit env cs _ _ _ Hcopy).
    do 3 eexists. split; [reflexivity | left; reflexivity]. }
  destruct (network env request) as [response|] eqn:Hnet.
  - rewrite (run_cacheFirst_online env cs _ _ _ Hcopy Hnet).
    do 3 eexists. split; [reflexivity|].
    destruct (written_through request response) eqn:Hw; [|left; reflexivity].
    unfold written_through in Hw. apply andb_true_iff in Hw. destruct Hw as [Hok Hw].
    apply andb_true_iff in Hw. destruct Hw as [Hw _].
    apply andb_true_iff in Hw. destruct Hw as [Hget _].
    right. exists response. repeat split; assumption.
  - rewrite (run_cacheFirst_offline env cs _ _ Hcopy Hnet).
    do 3 eexists. split; [reflexivity | left; reflexivity].
Qed.

Lemma networkFirst_effect env (cs : CacheStorage) request :
  exists r cs' t,
    networkFirst request env cs = (Fulfilled r, cs', t)
    /\ (cs' = ensure_store RUNTIME_CACHE cs
        \/ exists response,
             network env request = Some response /\ ok response = true
             /\ is_GET request = true
             /\ cs' = update_store RUNTIME_CACHE
                        (fun c => <[cache_key request := response]> c)
                        (ensure_store RUNTIME_CACHE cs)).
Proof.
  destruct (network env request) as [response|] eqn:Hnet.
  - rewrite (run_networkFirst_online env cs _ _ Hnet).
    do 3 eexists. split; [reflexivity|].
    destruct (written_through request response) eqn:Hw; [|left; reflexivity].
    unfold written_through in Hw. apply andb_true_iff in Hw. destruct Hw as [Hok Hw].
    apply andb_true_iff in Hw. destruct Hw as [Hw _].
    apply andb_true_iff in Hw. destruct Hw as [Hget _].
    right. exists response. repeat split; assumption.
  - destruct (run_networkFirst_offline env cs request Hnet) as [t ->].
    do 3 eexists. split; [reflexivity | left; reflexivity].
Qed.

(** X6: the only response promise the fetch handler ever lets reject is
    the bare [fetch] of a same-origin request that is not GET and whose URL
    does not contain '/api/', when the network fails; every request routed
    to a strategy is answered with a response. *)
Theorem fetch_rejects_only_passthrough (env : Env) (request : Request)
    (cs : CacheStorage) :
  (exists e, fst (fst (dispatch_fetch env request cs)) = Some (Rejected e))
  <-> (origin (req_url request) = origin (location env)
       /\ includes (href (req_url request)) "/api/" = false
       /\ req_method request <> "GET"
       /\ network env request = None).
Proof.
  unfold dispatch_fetch.
  destruct (String.eqb (origin (req_url request)) (origin (location env))) eqn:Ho.
  - apply String.eqb_eq in Ho. rewrite (onfetch_same_origin _ _ Ho).
    destruct (includes (href (req_url request)) "/api/").
    { destruct (networkFirst_effect env cs request) as [r [cs' [t [-> _]]]].
      split; [intros [e He]; discriminate | intros [_ [H _]]; discriminate]. }
    destruct (String.eqb (req_method request) "GET") eqn:Hm; cbn [negb].
    + apply String.eqb_eq in Hm.
      assert (Hleft : forall o : option (Outcome Response) * CacheStorage * list Event,
                 (exists r cs' t, o = (Some (Fulfilled r), cs', t)) ->
                 ~ exists e, fst (fst o) = Some (Rejected e)).
      { intros o [r [cs' [t ->]]] [e He]. discriminate. }
      split; [|intros [_ [_ [H _]]]; contradiction].
      intros Hrej. exfalso. revert Hrej. apply Hleft.
      destruct (String.eqb (req_mode request) "navigate").
      * destruct (networkFirst_effect env cs request) as [r [cs' [t [-> _]]]].
        do 3 eexists. reflexivity.
      * destruct (cacheFirst_effect env cs request CACHE_NAME) as [r [cs' [t [-> _]]]].
        do 3 eexists. reflexivity.
    + apply String.eqb_neq in Hm. rewrite run_fetch. unfold network_outcome.
      destruct (network env request) as [response|].
      * split; [intros [e He]; discriminate | intros [_ [_ [_ H]]]; discriminate].
      * split; [intros _; repeat split; trivial | intros _; eexists; reflexivity].
  - apply String.eqb_neq in Ho. rewrite (onfetch_cross_origin _ _ Ho).
    split; [|intros [H _]; contradiction].
    intros [e He]. destruct (shouldCacheExternal (req_url request)).
    + destruct (cacheFirst_effect env cs request RUNTIME_CACHE) as [r [cs' [t [Hrun _]]]].
      rewrite Hrun in He. discriminate.
    + discriminate.
Qed.

Lemma written_or_kept n request response (cs : CacheStorage) name k :
  store name
    (update_store n (fun c => <[cache_key request := response]> c) (ensure_store n cs))
    !! k
  = store name cs !! k
  \/ (k = cache_key request /\ name = n
      /\ store name
           (update_store n (fun c => <[cache_key request := response]> c)
              (ensure_store n cs)) !! k
         = Some response).
Proof.
  rewrite store_written. destruct (String.eqb name n) eqn:Hn; [|left; reflexivity].
  apply String.eqb_eq in Hn. destruct (decide (cache_key request = k)) as [<-|Hk].
  - right. split; [reflexivity|]. split; [exact Hn|]. apply lookup_insert_eq.
  - left. apply lookup_insert_ne. exact Hk.
Qed.

(** X7: a fetch event changes at most one cache entry, and only to store
    a success. Whatever the request, every entry of every store is the
    same after the event as before, except possibly the entry of the
    request's own URL in a store of the current version; that one changes
    only for a GET request, and then it holds the ok response the network
    gave for this request. *)
Theorem fetch_event_writes_only_ok (env : Env) (request : Request)
    (cs : CacheStorage) (name k : string) :
  let '(_, cs', _) := dispatch_fetch env request cs in
  store name cs' !! k = store name cs !! k
  \/ (k = cache_key request
      /\ is_current name = true
      /\ req_method request = "GET"
      /\ exists response,
           network env request = Some response /\ ok response = true
           /\ store name cs' !! k = Some response).
Proof.
  assert (Hstrategy : forall n (p : Outcome Response * CacheStorage * list Event),
             is_current n = true ->
             (exists r cs' t,
                p = (Fulfilled r, cs', t)
                /\ (cs' = ensure_store n cs
                    \/ exists response,
                         network env request = Some response /\ ok response = true
                         /\ is_GET request = true
                         /\ cs' = update_store n
                                    (fun c => <[cache_key request := response]> c)
                                    (ensure_store n cs))) ->
             let '(o, cs', t) := p in
             store name cs' !! k = store name cs !! k
             \/ (k = cache_key request /\ is_current name = true
                 /\ req_method request = "GET"
                 /\ exists response,
                      network env request = Some response /\ ok response = true
                      /\ store name cs' !! k = Some response)).
  { intros n p Hn [r [cs' [t [-> Hcs]]]].
    destruct Hcs as [-> | [response [Hnet [Hok [Hget ->]]]]].
    - left. rewrite store_ensure. reflexivity.
    - destruct (written_or_kept n request response cs name k) as [H | [Hk [Hname H]]].
      + left. exact H.
      + right. subst name. split; [exact Hk|]. split; [exact Hn|].
        split; [apply String.eqb_eq; exact Hget|].
        exists response. split; [exact Hnet|]. split; [exact Hok | exact H]. }
  assert (Hstatic : is_current CACHE_NAME = true) by reflexivity.
  assert (Hruntime : is_current RUNTIME_CACHE = true) by reflexivity.
  unfold dispatch_fetch, onfetch.
  destruct (negb (String.eqb (origin (req_url request)) (origin (location env)))).
  { destruct (shouldCacheExternal (req_url request)); [|left; reflexivity].
    specialize (Hstrategy RUNTIME_CACHE (cacheFirst request RUNTIME_CACHE env cs)
                  Hruntime (cacheFirst_effect env cs request RUNTIME_CACHE)).
    destruct (cacheFirst request RUNTIME_CACHE env cs) as [[o cs'] t]. exact Hstrategy. }
  destruct (includes (href (req_url request)) "/api/").
  { specialize (Hstrategy RUNTIME_CACHE (networkFirst request env cs)
                  Hruntime (networkFirst_effect env cs request)).
    destruct (networkFirst request env cs) as [[o cs'] t]. exact Hstrategy. }
  destruct (negb (String.eqb (req_method request) "GET")).
  { rewrite run_fetch. left. reflexivity. }
  destruct (String.eqb (req_mode request) "navigate").
  - specialize (Hstrategy RUNTIME_CACHE (networkFirst request env cs)
                  Hruntime (networkFirst_effect env cs request)).
    destruct (networkFirst request env cs) as [[o cs'] t]. exact Hstrategy.
  - specialize (Hstrategy CACHE_NAME (cacheFirst request CACHE_NAME env cs)
                  Hstatic (cacheFirst_effect env cs request CACHE_NAME)).
    destruct (cacheFirst request CACHE_NAME env cs) as [[o cs'] t]. exact Hstrategy.
Qed.

(** ** A successful install *)

Lemma append_inv_head (a b c : string) : (a ++ b)%string = (a ++ c)%string -> b = c.
Proof.
  induction a as [|x a IH]; intros H; [exact H|].
  rewrite !append_cons in H. injection H as H. apply IH. exact H.
Qed.

Lemma eqb_append_head (a x y : string) :
  String.eqb (a ++ x)%string (a ++ y)%string = String.eqb x y.
Proof.
  induction a as [|c a IH]; [reflexivity|].
  rewrite !append_cons. cbn [String.eqb]. rewrite Ascii.eqb_refl. exact IH.
Qed.

Lemma existsb_append_head (a x : string) (l : list string) :
  existsb (String.eqb (a ++ x)%string) (map (fun y => (a ++ y)%string) l)
  = existsb (String.eqb x) l.
Proof.
  induction l as [|y l IH]; [reflexivity|].
  cbn [map existsb]. rewrite eqb_append_head, IH. reflexivity.
Qed.

Lemma distinct_append_head (a : string) (l : list string) :
  distinct (map (fun x => (a ++ x)%string) l) = distinct l.
Proof.
  induction l as [|x l IH]; [reflexivity|].
  cbn [map distinct]. rewrite existsb_append_head, IH. reflexivity.
Qed.

(** The cache key of a path of the site is the origin followed by the
    path. *)
Lemma precache_key loc u :
  In u PRECACHE_ASSETS -> cache_key (request_of loc u) = (origin loc ++ u)%string.
Proof.
  intros Hin. destruct (precache_parse loc u Hin) as [p [-> Hp]].
  unfold cache_key, request_of, resolve. rewrite Hp. reflexivity.
Qed.

Lemma precache_scheme loc u :
  In u PRECACHE_ASSETS -> protocol (req_url (request_of loc u)) = protocol loc.
Proof.
  intros Hin. destruct (precache_parse loc u Hin) as [p [-> Hp]].
  unfold request_of, resolve. rewrite Hp. reflexivity.
Qed.

(** Two URLs of the precache list with the same cache key are the same. *)
Lemma precache_key_inj loc u u' :
  In u PRECACHE_ASSETS -> In u' PRECACHE_ASSETS ->
  cache_key (request_of loc u) = cache_key (request_of loc u') -> u = u'.
Proof.
  intros Hu Hu'. rewrite (precache_key loc u Hu), (precache_key loc u' Hu').
  apply append_inv_head.
Qed.

(** No URL is named twice by the precache list. *)
Lemma precache_keys_distinct loc :
  distinct (map (fun u => cache_key (request_of loc u)) PRECACHE_ASSETS) = true.
Proof.
  rewrite (map_ext_in _ (fun u => (origin loc ++ u)%string)).
  - rewrite distinct_append_head. reflexivity.
  - intros u Hu. apply precache_key. exact Hu.
Qed.

Lemma put_all_cons e entries (c : Cache) :
  put_all (e :: entries) c = put_all entries (<[cache_key (fst e) := snd e]> c).
Proof. reflexivity. Qed.

Lemma put_all_lookup_notin entries (c : Cache) k :
  (forall e, In e entries -> cache_key (fst e) <> k) ->
  put_all entries c !! k = c !! k.
Proof.
  revert c. induction entries as [|e rest IH]; intros c Hk; [reflexivity|].
  rewrite put_all_cons, IH.
  - apply lookup_insert_ne. apply Hk. left. reflexivity.
  - intros e' He'. apply Hk. right. exact He'.
Qed.

(** The last entry written for a key is the one the store holds. *)
Lemma put_all_lookup_in entries (c : Cache) k :
  (exists e, In e entries /\ cache_key (fst e) = k) ->
  exists e, In e entries /\ cache_key (fst e) = k
            /\ put_all entries c !! k = Some (snd e).
Proof.
  revert c. induction entries as [|e rest IH]; intros c [e0 [Hin Hkey]];
    [destruct Hin|].
  rewrite put_all_cons.
  destruct (existsb (fun e' => String.eqb (cache_key (fst e')) k) rest) eqn:Hlater.
  - apply existsb_exists in Hlater. destruct Hlater as [e' [He' Hk']].
    apply String.eqb_eq in Hk'.
    destruct (IH (<[cache_key (fst e) := snd e]> c)) as [e1 [H1 [H2 H3]]].
    { exists e'. split; assumption. }
    exists e1. split; [right; exact H1|]. split; assumption.
  - assert (Hnone : forall e', In e' rest -> cache_key (fst e') <> k).
    { intros e' He' Hk'. apply not_true_iff_false in Hlater. apply Hlater.
      apply existsb_exists. exists e'. split; [exact He'|].
      apply String.eqb_eq. exact Hk'. }
    assert (Hhere : cache_key (fst e) = k).
    { destruct Hin as [->|Hin]; [exact Hkey|]. exfalso.
      apply (Hnone e0 Hin Hkey). }
    exists e. split; [left; reflexivity|]. split; [exact Hhere|].
    rewrite (put_all_lookup_notin _ _ _ Hnone), Hhere. apply lookup_insert_eq.
Qed.

(** The batch of fetches never touches the storage. *)
Lemma fetch_batch_storage (urls : list string) env (cs : CacheStorage) :
  exists o t, fetch_batch urls env cs = (o, cs, t).
Proof.
  induction urls as [|u rest IH]; [do 2 eexists; reflexivity|].
  cbn [fetch_batch]. unfold bind at 1. cbn [ask].
  destruct (new_Request env u) as [request|]; [|do 2 eexists; reflexivity].
  destruct (web_scheme (protocol (req_url request))); [|do 2 eexists; reflexivity].
  unfold bind at 1. rewrite run_fetch. unfold network_outcome.
  destruct (network env request) as [response|]; [|do 2 eexists; reflexivity].
  destruct (ok response && storable response); [|do 2 eexists; reflexivity].
  destruct IH as [o [t IH]]. unfold bind at 1. rewrite IH.
  destruct o; do 2 eexists; reflexivity.
Qed.

(** When every URL of the precache list is answered with a success the
    store accepts, the batch yields one entry per URL, in order, each
    pairing the request with what the network gave for it. *)
Lemma run_fetch_batch_ok (urls : list string) env (cs : CacheStorage) :
  web_scheme (protocol (location env)) = true ->
  (forall u, In u urls -> In u PRECACHE_ASSETS /\ answers_storable env u = true) ->
  exists entries,
    fetch_batch urls env cs
    = (Fulfilled entries, cs, map (fun u => EvFetch (request_of (location env) u)) urls)
    /\ map fst entries = map (request_of (location env)) urls
    /\ (forall e, In e entries ->
          network env (fst e) = Some (snd e) /\ ok (snd e) = true
          /\ exists u, In u urls /\ fst e = request_of (location env) u)
    /\ (forall u, In u urls -> exists r, In (request_of (location env) u, r) entries).
Proof.
  intros Hweb. induction urls as [|u rest IH]; intros Hok.
  - exists []. split; [reflexivity|]. split; [reflexivity|].
    split; [intros e []|intros u []].
  - destruct IH as [entries [Hrun [Hfst [Hentries Hurls]]]].
    { intros v Hv. apply Hok. right. exact Hv. }
    destruct (Hok u (or_introl eq_refl)) as [Hpre Hu]. unfold answers_storable in Hu.
    destruct (network env (request_of (location env) u)) as [response|] eqn:Hnet;
      [|discriminate].
    exists ((request_of (location env) u, response) :: entries).
    split; [|split; [|split]].
    + cbn [fetch_batch]. unfold bind at 1. cbn [ask].
      rewrite (precache_request env u Hpre), (precache_scheme _ u Hpre), Hweb.
      unfold bind at 1. rewrite run_fetch. unfold network_outcome. rewrite Hnet, Hu.
      unfold bind at 1. rewrite Hrun. cbn [ret app map]. rewrite app_nil_r.
      reflexivity.
    + cbn [map fst]. rewrite Hfst. reflexivity.
    + apply andb_true_iff in Hu. destruct Hu as [Hu _].
      intros e [<-|He].
      * cbn [fst snd]. split; [exact Hnet|]. split; [exact Hu|].
        exists u. split; [left|]; reflexivity.
      * destruct (Hentries e He) as [H1 [H2 [v [Hv H3]]]].
        split; [exact H1|]. split; [exact H2|]. exists v. split; [right|]; assumption.
    + intros v [<-|Hv].
      * exists response. left. reflexivity.
      * destruct (Hurls v Hv) as [r Hr]. exists r. right. exact Hr.
Qed.

(** What a store holds once the batch of the precache list is written
    into it. *)
Lemma batch_written env entries (c : Cache) :
  (forall e, In e entries ->
     network env (fst e) = Some (snd e) /\ ok (snd e) = true
     /\ exists u, In u PRECACHE_ASSETS /\ fst e = request_of (location env) u) ->
  (forall u, In u PRECACHE_ASSETS ->
     exists r, In (request_of (location env) u, r) entries) ->
  (forall u, In u PRECACHE_ASSETS ->
     exists r, network env (request_of (location env) u) = Some r /\ ok r = true
               /\ put_all entries c !! cache_key (request_of (location env) u) = Some r)
  /\ (forall k,
        (forall u, In u PRECACHE_ASSETS ->
           cache_key (request_of (location env) u) <> k) ->
        put_all entries c !! k = c !! k).
Proof.
  intros Hentries Hurls. split.
  - intros u Hu. destruct (Hurls u Hu) as [r0 Hr0].
    destruct (put_all_lookup_in entries c (cache_key (request_of (location env) u)))
      as [e [He [Hkey Hlook]]].
    { exists (request_of (location env) u, r0). split; [exact Hr0 | reflexivity]. }
    destruct (Hentries e He) as [Hnet [Hok [v [Hv Hfst]]]].
    exists (snd e). rewrite Hfst in Hkey, Hnet.
    apply (precache_key_inj _ _ _ Hv Hu) in Hkey. subst v.
    split; [exact Hnet|]. split; [exact Hok | exact Hlook].
  - intros k Hk. apply put_all_lookup_notin. intros e He Hkey.
    destruct (Hentries e He) as [_ [_ [v [Hv Hfst]]]].
    rewrite Hfst in Hkey. exact (Hk v Hv Hkey).
Qed.

Lemma run_install_ok env (cs : CacheStorage) :
  web_scheme (protocol (location env)) = true ->
  (forall u, In u PRECACHE_ASSETS -> answers_storable env u = true) ->
  exists entries,
    install env cs
    = (Fulfilled tt,
       update_store CACHE_NAME (put_all entries) (ensure_store CACHE_NAME cs),
       EvOpen CACHE_NAME :: EvAddAll CACHE_NAME PRECACHE_ASSETS
         :: map (fun u => EvFetch (request_of (location env) u)) PRECACHE_ASSETS
         ++ [EvSkipWaiting])
    /\ (forall e, In e entries ->
          network env (fst e) = Some (snd e) /\ ok (snd e) = true
          /\ exists u, In u PRECACHE_ASSETS /\ fst e = request_of (location env) u)
    /\ (forall u, In u PRECACHE_ASSETS ->
          exists r, In (request_of (location env) u, r) entries).
Proof.
  intros Hweb Hok.
  destruct (run_fetch_batch_ok PRECACHE_ASSETS env (ensure_store CACHE_NAME cs) Hweb)
    as [entries [Hrun [Hfst [H1 H2]]]].
  { intros u Hu. split; [exact Hu | apply Hok; exact Hu]. }
  exists entries. split; [|split; assumption].
  assert (Hdistinct : distinct (map (fun e => cache_key (fst e)) entries) = true).
  { rewrite <- (map_map fst cache_key), Hfst, map_map. apply precache_keys_distinct. }
  unfold install, try_catch. unfold bind at 1. rewrite run_caches_open.
  unfold bind at 1. unfold cache_addAll. unfold bind at 1. cbn [emit].
  unfold bind at 1. rewrite Hrun, Hdistinct.
  unfold bind at 1. cbn [get_storage set_storage].
  cbn [skipWaiting emit]. rewrite !app_nil_r. reflexivity.
Qed.

(** X9: a successful install. When the worker is served over http or
    https and every URL of the precache list is answered with a success
    that the store accepts (not a 206, no Vary on [*]), the promise of the
    install event fulfils, skip-waiting is signalled, and the static store
    holds, for every URL of the list, the response the network gave for
    it; its other entries and the other stores are left as they were. *)
Theorem install_success_precaches_all (env : Env) (cs : CacheStorage) :
  web_scheme (protocol (location env)) = true ->
  (forall u, In u PRECACHE_ASSETS -> answers_storable env u = true) ->
  let '(o, cs', t) := install env cs in
  o = Fulfilled tt
  /\ existsb is_skip_waiting t = true
  /\ (forall u, In u PRECACHE_ASSETS ->
        exists r, network env (request_of (location env) u) = Some r /\ ok r = true
                  /\ store CACHE_NAME cs' !! cache_key (request_of (location env) u)
                     = Some r)
  /\ (forall k,
        (forall u, In u PRECACHE_ASSETS -> cache_key (request_of (location env) u) <> k) ->
        store CACHE_NAME cs' !! k = store CACHE_NAME cs !! k)
  /\ (forall name, name <> CACHE_NAME -> store name cs' = store name cs).
Proof.
  intros Hweb Hok. destruct (run_install_ok env cs Hweb Hok) as [entries [-> [H1 H2]]].
  destruct (batch_written env entries (store CACHE_NAME cs) H1 H2) as [Hin Hout].
  split; [reflexivity|]. split; [|split; [|split]].
  - cbn [existsb is_skip_waiting orb]. rewrite existsb_app.
    cbn [existsb is_skip_waiting orb]. apply orb_true_r.
  - intros u Hu. rewrite store_written, String.eqb_refl. apply Hin. exact Hu.
  - intros k Hk. rewrite store_written, String.eqb_refl. apply Hout. exact Hk.
  - intros name Hname. rewrite store_written.
    apply String.eqb_neq in Hname. rewrite Hname. reflexivity.
Qed.

Lemma install_success_precaches_all_witness :
  let '(o, cs', t) := install Sample.online Sample.after_upgrade in
  o = Fulfilled tt
  /\ existsb is_skip_waiting t = true
  /\ (forall u, In u PRECACHE_ASSETS ->
        exists r, network Sample.online (request_of (location Sample.online) u) = Some r
                  /\ ok r = true
                  /\ store CACHE_NAME cs' !! cache_key (request_of (location Sample.online) u)
                     = Some r)
  /\ (forall k,
        (forall u, In u PRECACHE_ASSETS ->
           cache_key (request_of (location Sample.online) u) <> k) ->
        store CACHE_NAME cs' !! k = store CACHE_NAME Sample.after_upgrade !! k)
  /\ (forall name, name <> CACHE_NAME ->
        store name cs' = store name Sample.after_upgrade).
Proof.
  apply (install_success_precaches_all Sample.online Sample.after_upgrade).
  - reflexivity.
  - intros u Hu. reflexivity.
Defined.

(** ** Install, activate, then fetch *)

Lemma find_filter_keep {A} (f P : A -> bool) (l : list A) :
  (forall x, f x = true -> P x = true) ->
  find f (List.filter P l) = find f l.
Proof.
  intros Hkeep. induction l as [|a l IH]; [reflexivity|].
  cbn [List.filter find]. destruct (f a) eqn:Hf.
  - rewrite (Hkeep a Hf). cbn [find]. rewrite Hf. reflexivity.
  - destruct (P a); [cbn [find]; rewrite Hf|]; exact IH.
Qed.

Lemma store_after_activate name (cs : CacheStorage) :
  is_current name = true ->
  store name (List.filter (fun p => is_current (fst p)) cs) = store name cs.
Proof.
  intros Hcur. unfold store. rewrite find_filter_keep; [reflexivity|].
  intros p Hp. apply String.eqb_eq in Hp. rewrite Hp. exact Hcur.
Qed.

(** X15: activation never evicts an entry of the current version. The
    static store and the runtime store hold after the activate handler
    exactly what they held before it. *)
Theorem activate_keeps_current_entries (env : Env) (cs : CacheStorage) (name : string) :
  is_current name = true ->
  let '(_, cs', _) := activate env cs in
  store name cs' = store name cs.
Proof.
  intros Hcur. rewrite run_activate. apply store_after_activate. exact Hcur.
Qed.

Lemma activate_keeps_current_entries_witness :
  let '(_, cs', _) := activate Sample.online Sample.after_upgrade in
  store CACHE_NAME cs' = store CACHE_NAME Sample.after_upgrade.
Proof.
  apply (activate_keeps_current_entries Sample.online Sample.after_upgrade CACHE_NAME).
  reflexivity.
Defined.

Lemma precache_origin loc u :
  In u PRECACHE_ASSETS -> origin (resolve loc u) = origin loc.
Proof.
  intros Hin. destruct (precache_parse loc u Hin) as [p [-> Hp]].
  unfold resolve. rewrite Hp. reflexivity.
Qed.

(** A same-origin GET for a static asset that the static store holds. *)
Lemma dispatch_static_hit env (cs : CacheStorage) request cached :
  origin (req_url request) = origin (location env) ->
  req_method request = "GET" ->
  req_mode request <> "navigate" ->
  includes (href (req_url request)) "/api/" = false ->
  store CACHE_NAME cs !! cache_key request = Some cached ->
  dispatch_fetch env request cs
  = (Some (Fulfilled cached), ensure_store CACHE_NAME cs,
     [EvOpen CACHE_NAME; EvCacheMatch CACHE_NAME request]).
Proof.
  intros Horigin Hget Hmode Hapi Hhit. unfold dispatch_fetch.
  rewrite (onfetch_same_origin _ _ Horigin), Hapi, Hget.
  change (negb (String.eqb "GET" "GET")) with false. cbv iota.
  apply String.eqb_neq in Hmode. rewrite Hmode.
  rewrite (run_cacheFirst_hit env cs request CACHE_NAME cached); [reflexivity|].
  unfold cached_copy, is_GET. rewrite Hget. exact Hhit.
Qed.

(** X10: precached assets are available offline. Let the worker be
    served over http or https. After an install in which every precache
    URL was answered with a success that the store accepts (not a 206, no
    Vary on [*]), followed by activation, a same-origin GET that is not a
    navigation for a URL of the precache list whose stored response has no
    Vary header is answered with the response fetched at install time,
    without a network fetch, whatever the network does by then. *)
Theorem precached_asset_served_offline (env env' : Env) (cs : CacheStorage)
    (u mode : string) :
  web_scheme (protocol (location env)) = true ->
  (forall v, In v PRECACHE_ASSETS -> answers_storable env v = true) ->
  In u PRECACHE_ASSETS ->
  (forall r, network env (request_of (location env) u) = Some r -> no_vary r = true) ->
  location env' = location env ->
  mode <> "navigate" ->
  includes (href (resolve (location env) u)) "/api/" = false ->
  let '(_, cs1, _) := install env cs in
  let '(_, cs2, _) := activate env cs1 in
  let '(o, _, t) := dispatch_fetch env' (site_request (location env) u mode) cs2 in
  exists r,
    network env (request_of (location env) u) = Some r
    /\ o = Some (Fulfilled r)
    /\ existsb is_network_fetch t = false.
Proof.
  intros Hweb Hok Hu _ Hloc Hmode Hapi.
  destruct (run_install_ok env cs Hweb Hok) as [entries [-> [H1 H2]]].
  rewrite run_activate.
  destruct (batch_written env entries (store CACHE_NAME cs) H1 H2) as [Hin _].
  destruct (Hin u Hu) as [r [Hnet [_ Hlook]]].
  rewrite (dispatch_static_hit env' _ (site_request (location env) u mode) r).
  - exists r. split; [exact Hnet|]. split; reflexivity.
  - rewrite Hloc. apply precache_origin. exact Hu.
  - reflexivity.
  - exact Hmode.
  - exact Hapi.
  - rewrite store_after_activate by reflexivity.
    rewrite store_written, String.eqb_refl. exact Hlook.
Qed.

Lemma precached_asset_served_offline_witness :
  let '(_, cs1, _) := install Sample.online [] in
  let '(_, cs2, _) := activate Sample.online cs1 in
  let '(o, _, t) :=
    dispatch_fetch Sample.offline
      (site_request (location Sample.online) "/assets/css/main.css" "no-cors") cs2 in
  exists r,
    network Sample.online (request_of (location Sample.online) "/assets/css/main.css")
    = Some r
    /\ o = Some (Fulfilled r)
    /\ existsb is_network_fetch t = false.
Proof.
  apply (precached_asset_served_offline Sample.online Sample.offline []
           "/assets/css/main.css" "no-cors").
  - reflexivity.
  - intros v Hv. reflexivity.
  - vm_compute. right. right. left. reflexivity.
  - intros r Hr. vm_compute in Hr. injection Hr as <-. reflexivity.
  - reflexivity.
  - vm_compute. discriminate.
  - vm_compute. reflexivity.
Defined.

Lemma not_in_current_ensure key name (cs : CacheStorage) :
  not_in_current key cs = true -> not_in_current key (ensure_store name cs) = true.
Proof.
  intros H. unfold ensure_store. destruct (has_store name cs); [exact H|].
  unfold not_in_current in *. rewrite forallb_app, H. cbn [forallb snd].
  rewrite lookup_empty, orb_true_r. reflexivity.
Qed.

(** What [caches.match] finds for a key after a write into one store of
    the current version followed by activation, when no current store
    held the key before. *)
Lemma storage_lookup_after_write key n (f : Cache -> Cache) v (cs : CacheStorage) :
  is_current n = true ->
  (forall c : Cache, c !! key = None -> f c !! key = v) ->
  not_in_current key cs = true ->
  storage_lookup key
    (List.filter (fun p => is_current (fst p)) (update_store n f cs))
  = if has_store n cs then v else None.
Proof.
  intros Hn Hf. unfold update_store, has_store, not_in_current.
  induction cs as [|[m c] rest IH]; intros Habs; [reflexivity|].
  cbn [forallb fst snd] in Habs. apply andb_true_iff in Habs.
  destruct Habs as [Hhere Hrest]. specialize (IH Hrest).
  cbn [map existsb fst snd]. destruct (String.eqb m n) eqn:Hm.
  - apply String.eqb_eq in Hm. subst m. rewrite Hn in Hhere. cbn [negb orb] in Hhere.
    cbn [List.filter fst]. rewrite Hn. cbn [storage_lookup orb].
    destruct (c !! key) eqn:Hc; [discriminate|].
    rewrite (Hf c Hc). destruct v as [r|]; [reflexivity|].
    rewrite IH. destruct (existsb _ rest); reflexivity.
  - cbn [List.filter fst orb]. destruct (is_current m) eqn:Hcur.
    + cbn [negb orb] in Hhere. cbn [storage_lookup].
      destruct (c !! key); [discriminate | exact IH].
    + exact IH.
Qed.

Lemma offline_key_not_precached loc u :
  In u PRECACHE_ASSETS ->
  cache_key (request_of loc u) <> cache_key (request_of loc OFFLINE_URL).
Proof.
  intros Hin Hkey. rewrite (precache_key loc u Hin) in Hkey.
  change (cache_key (request_of loc OFFLINE_URL))
    with (origin loc ++ OFFLINE_URL)%string in Hkey.
  apply append_inv_head in Hkey. subst u.
  unfold PRECACHE_ASSETS in Hin. cbn [In] in Hin.
  repeat (destruct Hin as [Hin|Hin]; [discriminate Hin|]).
  exact Hin.
Qed.

(** X11: the first offline navigation after an install shows the shell.
    Let the worker be served over http or https and let no store of the
    current version hold the offline page or the shell or a copy of the
    request. After an install in which every precache URL was answered
    with a success that the store accepts (not a 206, no Vary on [*]),
    followed by activation, a same-origin navigation whose fetch rejects
    is answered with the response fetched for '/index.html' at install
    time: the offline page is not there to be preferred, and stores of
    older versions are gone. *)
Theorem offline_navigation_answers_shell (env env' : Env) (cs : CacheStorage)
    (request : Request) :
  web_scheme (protocol (location env)) = true ->
  (forall v, In v PRECACHE_ASSETS -> answers_storable env v = true) ->
  location env' = location env ->
  not_in_current (cache_key (request_of (location env) "/offline.html")) cs = true ->
  not_in_current (cache_key (request_of (location env) "/index.html")) cs = true ->
  cached_copy RUNTIME_CACHE request cs = None ->
  origin (req_url request) = origin (location env) ->
  includes (href (req_url request)) "/api/" = false ->
  req_method request = "GET" ->
  req_mode request = "navigate" ->
  network env' request = None ->
  let '(_, cs1, _) := install env cs in
  let '(_, cs2, _) := activate env cs1 in
  let '(o, _, _) := dispatch_fetch env' request cs2 in
  exists shell,
    network env (request_of (location env) "/index.html") = Some shell
    /\ o = Some (Fulfilled shell).
Proof.
  intros Hweb Hok Hloc Hoff Hidx Hmiss Horigin Hapi Hget Hmode Hdown.
  destruct (run_install_ok env cs Hweb Hok) as [entries [-> [H1 H2]]].
  rewrite run_activate.
  assert (Hshell_in : In "/index.html" PRECACHE_ASSETS) by (right; left; reflexivity).
  pose proof (Hok _ Hshell_in) as Hshell. unfold answers_storable in Hshell.
  destruct (network env (request_of (location env) "/index.html")) as [shell|] eqn:Hnet;
    [|discriminate].
  unfold dispatch_fetch. rewrite Hloc in *.
  rewrite (onfetch_same_origin _ _ Horigin), Hapi, Hget, Hmode.
  change (negb (String.eqb "GET" "GET")) with false.
  change (String.eqb "navigate" "navigate") with true. cbv iota.
  match goal with
  | |- context [networkFirst request env' ?st] =>
      destruct (run_networkFirst_offline env' st request Hdown) as [t ->]
  end.
  rewrite Hmode. change (String.eqb "navigate" "navigate") with true. cbv iota.
  rewrite Hloc.
  assert (Hcopy : cached_copy RUNTIME_CACHE request
            (List.filter (fun p => is_current (fst p))
               (update_store CACHE_NAME (put_all entries) (ensure_store CACHE_NAME cs)))
          = None).
  { unfold cached_copy in *. rewrite store_after_activate by reflexivity.
    rewrite store_written. exact Hmiss. }
  rewrite Hcopy.
  rewrite (storage_lookup_after_write _ CACHE_NAME (put_all entries) None);
    [| reflexivity | | apply not_in_current_ensure; exact Hoff].
  2:{ intros c Hc. rewrite put_all_lookup_notin; [exact Hc|].
      intros e He. destruct (H1 e He) as [_ [_ [v [Hv ->]]]].
      apply offline_key_not_precached. exact Hv. }
  rewrite has_store_ensure.
  rewrite (storage_lookup_after_write _ CACHE_NAME (put_all entries) (Some shell));
    [| reflexivity | | apply not_in_current_ensure; exact Hidx].
  2:{ intros c _.
      destruct (batch_written env entries c H1 H2) as [Hin _].
      destruct (Hin _ Hshell_in) as [r [Hr [_ Hlook]]].
      rewrite Hnet in Hr. injection Hr as <-. exact Hlook. }
  rewrite has_store_ensure. exists shell. split; reflexivity.
Qed.

Lemma offline_navigation_answers_shell_witness :
  let '(_, cs1, _) := install Sample.online [] in
  let '(_, cs2, _) := activate Sample.online cs1 in
  let '(o, _, _) := dispatch_fetch Sample.offline Scenario.get_about cs2 in
  exists shell,
    network Sample.online (request_of (location Sample.online) "/index.html") = Some shell
    /\ o = Some (Fulfilled shell).
Proof.
  apply (offline_navigation_answers_shell Sample.online Sample.offline []
           Scenario.get_about); reflexivity.
Defined.

(** ** Control messages *)

(** A message has one type: the three tests of the listener exclude one
    another. *)
Lemma has_type_exclusive data a b :
  has_type data a = true -> String.eqb a b = false -> has_type data b = false.
Proof.
  unfold has_type. destruct data as [d|]; [|discriminate].
  destruct (msg_type d) as [ty|]; [|discriminate].
  intros Ha Hab. apply String.eqb_eq in Ha. subst ty. exact Hab.
Qed.

Lemma run_delete_all (ns : list string) env (cs : CacheStorage) :
  exists bs,
    all_map (fun cacheName => caches_delete cacheName) ns env cs
    = (Fulfilled bs,
       List.filter (fun p => negb (existsb (String.eqb (fst p)) ns)) cs,
       map EvDelete ns).
Proof.
  revert cs. induction ns as [|n ns IH]; intros cs.
  - exists []. cbn [all_map existsb negb map]. unfold ret. f_equal. f_equal.
    induction cs as [|p cs IHcs]; cbn [List.filter]; [reflexivity | f_equal; exact IHcs].
  - destruct (IH (remove_store n cs)) as [bs Hbs].
    exists (has_store n cs :: bs).
    cbn [all_map]. unfold bind at 1. rewrite run_caches_delete.
    unfold bind at 1. rewrite Hbs. cbn [ret app map]. rewrite app_nil_r.
    f_equal. f_equal. unfold remove_store. rewrite filter_filter_and.
    apply filter_ext. intros p. cbn [existsb]. rewrite negb_orb. reflexivity.
Qed.

Lemma delete_all_own_names (cs : CacheStorage) :
  List.filter (fun p => negb (existsb (String.eqb (fst p)) (store_names cs))) cs = [].
Proof.
  assert (H : forall l : CacheStorage,
             (forall p, In p l -> In p cs) ->
             List.filter (fun p => negb (existsb (String.eqb (fst p)) (store_names cs))) l
             = []).
  { induction l as [|p l IH]; intros Hsub; [reflexivity|].
    cbn [List.filter].
    assert (Hp : existsb (String.eqb (fst p)) (store_names cs) = true).
    { apply existsb_exists. exists (fst p). split; [|apply String.eqb_refl].
      unfold store_names. apply in_map. apply Hsub. left. reflexivity. }
    rewrite Hp. cbn [negb]. apply IH. intros q Hq. apply Hsub. right. exact Hq. }
  apply H. intros p Hp. exact Hp.
Qed.

Lemma cached_copy_empty name request : cached_copy name request [] = None.
Proof. unfold cached_copy. destruct (is_GET request); [apply lookup_empty | reflexivity]. Qed.

(** X12: CLEAR_CACHE is a hard reset. The message deletes every store,
    of whatever version: the cache storage is empty afterwards, and the
    next request served cache-first, for a URL cached before or not, goes
    to the network. *)
Theorem clear_cache_empties_storage (env : Env) (cs : CacheStorage)
    (data : option MessageData) :
  has_type data "CLEAR_CACHE" = true ->
  let '(o, cs', t) := onmessage data env cs in
  o = Fulfilled tt
  /\ cs' = []
  /\ t = EvKeys :: map EvDelete (store_names cs)
  /\ (forall env' request cacheName,
        let '(_, _, t2) := cacheFirst request cacheName env' cs' in
        In (EvFetch request) t2).
Proof.
  intros Hclear. unfold onmessage.
  rewrite (has_type_exclusive _ _ "SKIP_WAITING" Hclear) by reflexivity.
  rewrite (has_type_exclusive _ _ "CACHE_URLS" Hclear) by reflexivity.
  rewrite Hclear. unfold bind at 1. cbn [ret]. unfold bind at 1. unfold bind at 1.
  replace (caches_keys env cs) with (Fulfilled (store_names cs), cs, [EvKeys])
    by reflexivity.
  unfold bind at 1. destruct (run_delete_all (store_names cs) env cs) as [bs ->].
  rewrite delete_all_own_names. cbn [ret app]. rewrite !app_nil_r.
  split; [reflexivity|]. split; [reflexivity|]. split; [reflexivity|].
  intros env' request cacheName.
  pose proof (cached_copy_empty cacheName request) as Hmiss.
  destruct (network env' request) as [response|] eqn:Hnet.
  - rewrite (run_cacheFirst_online env' [] _ _ _ Hmiss Hnet).
    right. right. left. reflexivity.
  - rewrite (run_cacheFirst_offline env' [] _ _ Hmiss Hnet).
    right. right. left. reflexivity.
Qed.

Lemma clear_cache_empties_storage_witness :
  let '(o, cs', t) := onmessage Scenario.clear_cache Sample.offline Sample.warm in
  o = Fulfilled tt
  /\ cs' = []
  /\ t = EvKeys :: map EvDelete (store_names Sample.warm)
  /\ (forall env' request cacheName,
        let '(_, _, t2) := cacheFirst request cacheName env' cs' in
        In (EvFetch request) t2).
Proof.
  apply (clear_cache_empties_storage Sample.offline Sample.warm Scenario.clear_cache).
  reflexivity.
Defined.

(** The batch write of [addAll]: a rejected batch leaves the storage
    untouched, a fulfilled one changes entries of the given store only. *)
Lemma cache_addAll_effect cache (urls : list string) env (cs : CacheStorage) :
  exists o t cs',
    cache_addAll cache urls env cs = (o, cs', t)
    /\ ((exists e, o = Rejected e) /\ cs' = cs
        \/ exists entries, o = Fulfilled tt /\ cs' = update_store cache (put_all entries) cs).
Proof.
  unfold cache_addAll. unfold bind at 1. cbn [emit]. unfold bind at 1.
  destruct (fetch_batch_storage urls env cs) as [o [t ->]].
  destruct o as [entries|e].
  - destruct (distinct (map (fun e => cache_key (fst e)) entries)).
    + do 3 eexists. split; [reflexivity|]. right. exists entries. split; reflexivity.
    + do 3 eexists. split; [reflexivity|]. left. split; [eexists|]; reflexivity.
  - do 3 eexists. split; [reflexivity|]. left. split; [eexists|]; reflexivity.
Qed.

(** X13: CACHE_URLS is all-or-nothing, and its failure is not caught.
    When the request of one of the given URL strings fails (the string is
    no URL, the fetch rejects or the answer is not ok), the promise of the
    message event rejects (unlike the one of the install event) and every
    store holds what it held before. The strings may be absolute URLs of
    other origins as well as paths of the site. *)
Theorem cache_urls_failure_rejects (env : Env) (cs : CacheStorage)
    (data : option MessageData) (u : string) :
  has_type data "CACHE_URLS" = true ->
  In u (urls_of data) ->
  url_fetch_fails env u = true ->
  let '(o, cs', _) := onmessage data env cs in
  (exists e, o = Rejected e)
  /\ (forall name, store name cs' = store name cs).
Proof.
  intros Htype Hin Hfail. unfold onmessage.
  rewrite (has_type_exclusive _ _ "SKIP_WAITING" Htype) by reflexivity.
  rewrite (has_type_exclusive _ _ "CLEAR_CACHE" Htype) by reflexivity.
  rewrite Htype. unfold bind at 1. cbn [ret]. unfold bind at 1. cbn [ret].
  unfold bind at 1. rewrite run_caches_open.
  unfold cache_addAll. unfold bind at 1. cbn [emit]. unfold bind at 1.
  destruct (run_fetch_batch_fail (urls_of data) env (ensure_store RUNTIME_CACHE cs) u
              Hin Hfail) as [e [t [-> _]]].
  split; [exists e; reflexivity|]. intros name. apply store_ensure.
Qed.

Lemma cache_urls_failure_rejects_witness :
  new_Request Scenario.site_only "https://cdnjs.cloudflare.com/ajax/libs/gsap.min.js"
  = Some (mkRequest (mkURL "https:" "cdnjs.cloudflare.com" "ajax/libs/gsap.min.js")
            "GET" "cors")
  /\ (let '(o, cs', _) :=
        onmessage
          (Scenario.cache_urls
             ["/gallery.html"; "https://cdnjs.cloudflare.com/ajax/libs/gsap.min.js"])
          Scenario.site_only Sample.warm in
      (exists e, o = Rejected e)
      /\ (forall name, store name cs' = store name Sample.warm)).
Proof.
  split; [reflexivity|].
  apply (cache_urls_failure_rejects Scenario.site_only Sample.warm
           (Scenario.cache_urls
              ["/gallery.html"; "https://cdnjs.cloudflare.com/ajax/libs/gsap.min.js"])
           "https://cdnjs.cloudflare.com/ajax/libs/gsap.min.js").
  - reflexivity.
  - right. left. reflexivity.
  - vm_compute. reflexivity.
Defined.

(** An absolute URL is fetched from its own origin and stored under its
    own URL: with the CDN up and the site down, the batch fulfils. *)
Example cache_urls_absolute_url :
  let '(o, cs', t) :=
    onmessage (Scenario.cache_urls ["https://cdnjs.cloudflare.com/ajax/libs/gsap.min.js"])
      Scenario.cdn_only [] in
  o = Fulfilled tt
  /\ store RUNTIME_CACHE cs' !! "https://cdnjs.cloudflare.com/ajax/libs/gsap.min.js"
     = Some (Sample.page "lib").
Proof. vm_compute. split; reflexivity. Qed.

(** A batch that names one URL twice is refused as a whole. *)
Example cache_urls_duplicate_url :
  let '(o, cs', _) :=
    onmessage (Scenario.cache_urls ["/gallery.html"; "/gallery.html"])
      Sample.online [] in
  o = Rejected (DOMException "InvalidStateError")
  /\ cs' = [(RUNTIME_CACHE, ∅)].
Proof. vm_compute. split; reflexivity. Qed.

(** A partial response is a success for [response.ok] but is not stored:
    neither by a strategy nor by the precache batch. *)
Example partial_response_not_stored :
  (let '(o, cs', _) := cacheFirst Sample.get_logo CACHE_NAME Scenario.partial [] in
   o = Fulfilled (mkResponse 206 "Partial Content" [] "part")
   /\ cs' = [(CACHE_NAME, ∅)])
  /\ (let '(o, cs', t) := install Scenario.partial [] in
      o = Fulfilled tt /\ cs' = [(CACHE_NAME, ∅)]
      /\ existsb is_skip_waiting t = false).
Proof. vm_compute. repeat split; reflexivity. Qed.

(** X14: messages that are neither CLEAR_CACHE nor CACHE_URLS never
    touch the cache storage. A null message, a message without a type and
    a message of an unknown type do nothing at all; SKIP_WAITING only calls
    [self.skipWaiting()]. The promise fulfils in every case. *)
Theorem other_messages_leave_storage (env : Env) (cs : CacheStorage)
    (data : option MessageData) :
  has_type data "CLEAR_CACHE" = false ->
  has_type data "CACHE_URLS" = false ->
  onmessage data env cs
  = (Fulfilled tt, cs,
     if has_type data "SKIP_WAITING" then [EvSkipWaiting] else []).
Proof.
  intros Hclear Hurls. unfold onmessage. rewrite Hclear, Hurls.
  destruct (has_type data "SKIP_WAITING"); reflexivity.
Qed.

Lemma other_messages_leave_storage_witness :
  onmessage None Sample.online Sample.warm = (Fulfilled tt, Sample.warm, [])
  /\ onmessage Scenario.ping Sample.online Sample.warm = (Fulfilled tt, Sample.warm, [])
  /\ onmessage Scenario.skip_waiting Sample.online Sample.warm
     = (Fulfilled tt, Sample.warm, [EvSkipWaiting]).
Proof.
  split; [|split].
  - apply (other_messages_leave_storage Sample.online Sample.warm None); reflexivity.
  - apply (other_messages_leave_storage Sample.online Sample.warm Scenario.ping);
      reflexivity.
  - apply (other_messages_leave_storage Sample.online Sample.warm Scenario.skip_waiting);
      reflexivity.
Defined.

(** ** No handler creates a store of another version *)

Section OnlyCurrent.

Lemma coc_unchanged {A} (m : M A) :
  (forall env cs, storage_after (m env cs) = cs) -> creates_only_current m.
Proof.
  intros H env cs. rewrite H. apply incl_tl, incl_tl, incl_refl.
Qed.

Lemma incl_current_trans (a b c : list string) :
  incl a (CACHE_NAME :: RUNTIME_CACHE :: b) ->
  incl b (CACHE_NAME :: RUNTIME_CACHE :: c) ->
  incl a (CACHE_NAME :: RUNTIME_CACHE :: c).
Proof.
  intros Hab Hbc n Hn. destruct (Hab n Hn) as [<- | [<- | Hb]].
  - left. reflexivity.
  - right. left. reflexivity.
  - apply Hbc. exact Hb.
Qed.

(** The property composes along [bind], [try_catch], [detached] and
    [all_map]. *)
Lemma coc_bind {A B} (m : M A) (k : A -> M B) :
  creates_only_current m -> (forall a, creates_only_current (k a)) ->
  creates_only_current (bind m k).
Proof.
  intros Hm Hk env cs. unfold bind. specialize (Hm env cs).
  destruct (m env cs) as [[o cs1] t1]. destruct o as [a|e]; [|exact Hm].
  specialize (Hk a env cs1). destruct (k a env cs1) as [[o2 cs2] t2].
  exact (incl_current_trans _ _ _ Hk Hm).
Qed.

Lemma coc_try_catch {A} (m : M A) (h : JsError -> M A) :
  creates_only_current m -> (forall e, creates_only_current (h e)) ->
  creates_only_current (try_catch m h).
Proof.
  intros Hm Hh env cs. unfold try_catch. specialize (Hm env cs).
  destruct (m env cs) as [[o cs1] t1]. destruct o as [a|e]; [exact Hm|].
  specialize (Hh e env cs1). destruct (h e env cs1) as [[o2 cs2] t2].
  exact (incl_current_trans _ _ _ Hh Hm).
Qed.

Lemma coc_detached {A} (m : M A) :
  creates_only_current m -> creates_only_current (detached m).
Proof.
  intros Hm env cs. unfold detached. specialize (Hm env cs).
  destruct (m env cs) as [[o cs1] t1]. exact Hm.
Qed.

Lemma coc_ret {A} (a : A) : creates_only_current (ret a).
Proof. apply coc_unchanged. reflexivity. Qed.

Lemma coc_all_map {A B} (f : A -> M B) (xs : list A) :
  (forall x, creates_only_current (f x)) -> creates_only_current (all_map f xs).
Proof.
  intros Hf. induction xs as [|x xs IH]; [apply coc_ret|].
  cbn [all_map]. apply coc_bind; [apply Hf|]. intros y.
  apply coc_bind; [exact IH|]. intros ys. apply coc_ret.
Qed.

Lemma coc_fetch request : creates_only_current (fetch request).
Proof. apply coc_unchanged. intros env cs. rewrite run_fetch. reflexivity. Qed.

Lemma coc_open name : is_current name = true -> creates_only_current (caches_open name).
Proof.
  intros Hcur env cs. rewrite run_caches_open. cbn [storage_after fst snd].
  intros n Hn. apply store_names_ensure in Hn. destruct Hn as [<- | Hn].
  - apply current_cases in Hcur. destruct Hcur as [-> | ->];
      [left | right; left]; reflexivity.
  - right. right. exact Hn.
Qed.

Lemma coc_match cache request : creates_only_current (cache_match cache request).
Proof. apply coc_unchanged. reflexivity. Qed.

Lemma coc_match_url cache u : creates_only_current (cache_match_url cache u).
Proof.
  apply coc_unchanged. intros env cs. unfold cache_match_url, bind, ask.
  destruct (new_Request env u); reflexivity.
Qed.

Lemma coc_storage_match u : creates_only_current (caches_match_url u).
Proof.
  apply coc_unchanged. intros env cs. unfold caches_match_url, bind, ask.
  destruct (new_Request env u); reflexivity.
Qed.

Lemma coc_put cache request response :
  creates_only_current (cache_put cache request response).
Proof.
  intros env cs. destruct (run_cache_put env cs cache request response) as [o ->].
  cbn [storage_after fst snd].
  destruct (is_GET request && web_scheme (protocol (req_url request))
            && storable response).
  - rewrite store_names_update. apply incl_tl, incl_tl, incl_refl.
  - apply incl_tl, incl_tl, incl_refl.
Qed.

Lemma coc_addAll cache urls : creates_only_current (cache_addAll cache urls).
Proof.
  intros env cs.
  destruct (cache_addAll_effect cache urls env cs)
    as [o [t [cs' [-> [[_ ->] | [entries [_ ->]]]]]]]; cbn [storage_after fst snd].
  - apply incl_tl, incl_tl, incl_refl.
  - rewrite store_names_update. apply incl_tl, incl_tl, incl_refl.
Qed.

Lemma coc_delete name : creates_only_current (caches_delete name).
Proof.
  intros env cs. rewrite run_caches_delete. cbn [storage_after fst snd].
  apply incl_tl, incl_tl. unfold store_names, remove_store. intros n Hn.
  apply in_map_iff in Hn. destruct Hn as [p [<- Hp]]. apply filter_In in Hp.
  apply in_map. apply Hp.
Qed.

Lemma coc_cacheFirst request cacheName :
  is_current cacheName = true -> creates_only_current (cacheFirst request cacheName).
Proof.
  intros Hcur. unfold cacheFirst. apply coc_bind; [apply coc_open; exact Hcur|].
  intros cache. apply coc_bind; [apply coc_match|]. intros [cached|]; [apply coc_ret|].
  apply coc_try_catch.
  - apply coc_bind; [apply coc_fetch|]. intros response.
    apply coc_bind; [|intros _; apply coc_ret].
    destruct (ok response); [apply coc_detached, coc_put | apply coc_ret].
  - intros _. apply coc_bind; [apply coc_match_url|].
    intros [offlinePage|]; apply coc_ret.
Qed.

Lemma coc_networkFirst request : creates_only_current (networkFirst request).
Proof.
  unfold networkFirst. apply coc_bind; [apply coc_open; reflexivity|].
  intros cache. apply coc_try_catch.
  - apply coc_bind; [apply coc_fetch|]. intros response.
    apply coc_bind; [|intros _; apply coc_ret].
    destruct (ok response); [apply coc_detached, coc_put | apply coc_ret].
  - intros _. apply coc_bind; [apply coc_match|].
    intros [cached|]; [apply coc_ret|].
    apply coc_bind.
    + destruct (String.eqb (req_mode request) "navigate"); [|apply coc_ret].
      apply coc_bind; [apply coc_storage_match|].
      intros [first|]; [apply coc_ret | apply coc_storage_match].
    + intros [offlinePage|]; apply coc_ret.
Qed.

Lemma coc_install : creates_only_current install.
Proof.
  unfold install. apply coc_try_catch; [|intros _; apply coc_ret].
  apply coc_bind; [apply coc_open; reflexivity|]. intros cache.
  apply coc_bind; [apply coc_addAll|]. intros _.
  apply coc_unchanged. reflexivity.
Qed.

Lemma coc_activate : creates_only_current activate.
Proof.
  unfold activate. apply coc_bind; [apply coc_unchanged; reflexivity|].
  intros cacheNames. apply coc_bind; [|intros _; apply coc_unchanged; reflexivity].
  apply coc_all_map. intros cacheName.
  destruct (negb (String.eqb cacheName CACHE_NAME)
            && negb (String.eqb cacheName RUNTIME_CACHE)); [|apply coc_ret].
  apply coc_bind; [apply coc_delete | intros _; apply coc_ret].
Qed.

Lemma coc_onfetch loc request p :
  onfetch loc request = Some p -> creates_only_current p.
Proof.
  unfold onfetch.
  destruct (negb (String.eqb (origin (req_url request)) (origin loc))).
  { destruct (shouldCacheExternal (req_url request)); [|discriminate].
    intros [= <-]. apply coc_cacheFirst. reflexivity. }
  destruct (includes (href (req_url request)) "/api/").
  { intros [= <-]. apply coc_networkFirst. }
  destruct (negb (String.eqb (req_method request) "GET")).
  { intros [= <-]. apply coc_fetch. }
  destruct (String.eqb (req_mode request) "navigate"); intros [= <-].
  - apply coc_networkFirst.
  - apply coc_cacheFirst. reflexivity.
Qed.

Lemma coc_onmessage data : creates_only_current (onmessage data).
Proof.
  unfold onmessage. apply coc_bind.
  { destruct (has_type data "SKIP_WAITING"); [|apply coc_ret].
    apply coc_detached, coc_unchanged. reflexivity. }
  intros _. apply coc_bind.
  { destruct (has_type data "CLEAR_CACHE"); [|apply coc_ret].
    apply coc_bind; [apply coc_unchanged; reflexivity|]. intros cacheNames.
    apply coc_bind; [|intros _; apply coc_ret].
    apply coc_all_map. intros cacheName. apply coc_delete. }
  intros _. destruct (has_type data "CACHE_URLS"); [|apply coc_ret].
  apply coc_bind; [apply coc_open; reflexivity|]. intros cache. apply coc_addAll.
Qed.

Lemma only_current_kept (cs cs' : CacheStorage) :
  incl (store_names cs') (CACHE_NAME :: RUNTIME_CACHE :: store_names cs) ->
  only_current cs = true -> only_current cs' = true.
Proof.
  unfold only_current. intros Hincl Hcs. apply forallb_forall. intros n Hn.
  destruct (Hincl n Hn) as [<- | [<- | Hold]]; [reflexivity | reflexivity |].
  exact (proj1 (forallb_forall _ _) Hcs n Hold).
Qed.

End OnlyCurrent.

(** X8: version isolation is an invariant of the worker. Once only
    stores of the current version exist (as after any activation), that is
    still so after every install, activate, fetch, message and sync
    event, whatever the network answers: no handler ever creates a store
    under another name. *)
Theorem handlers_keep_only_current (env : Env) (cs : CacheStorage) :
  only_current cs = true ->
  only_current (storage_after (install env cs)) = true
  /\ only_current (storage_after (activate env cs)) = true
  /\ (forall request, only_current (storage_after (dispatch_fetch env request cs)) = true)
  /\ (forall data, only_current (storage_after (onmessage data env cs)) = true)
  /\ (forall tag, only_current (storage_after (onsync tag env cs)) = true).
Proof.
  intros Hcs. split; [|split; [|split; [|split]]].
  - exact (only_current_kept _ _ (coc_install env cs) Hcs).
  - exact (only_current_kept _ _ (coc_activate env cs) Hcs).
  - intros request. unfold dispatch_fetch.
    destruct (onfetch (location env) request) as [p|] eqn:Hp; [|exact Hcs].
    pose proof (coc_onfetch _ _ _ Hp env cs) as Hincl.
    destruct (p env cs) as [[o cs'] t].
    exact (only_current_kept _ _ Hincl Hcs).
  - intros data. exact (only_current_kept _ _ (coc_onmessage data env cs) Hcs).
  - intros tag. unfold onsync, syncForms.
    destruct (String.eqb tag "sync-forms"); exact Hcs.
Qed.

Lemma handlers_keep_only_current_witness :
  only_current (storage_after (install Sample.online Sample.warm)) = true
  /\ only_current (storage_after (activate Sample.online Sample.warm)) = true
  /\ (forall request,
        only_current (storage_after (dispatch_fetch Sample.online request Sample.warm)) = true)
  /\ (forall data,
        only_current (storage_after (onmessage data Sample.online Sample.warm)) = true)
  /\ (forall tag,
        only_current (storage_after (onsync tag Sample.online Sample.warm)) = true).
Proof.
  apply (handlers_keep_only_current Sample.online Sample.warm). reflexivity.
Defined.

(** ** API requests *)




(** ** CACHE_URLS without URLs *)

Lemma update_store_nothing name (cs : CacheStorage) :
  update_store name (put_all []) cs = cs.
Proof.
  unfold update_store. induction cs as [|[m c] rest IH]; [reflexivity|].
  cbn [map fst snd]. rewrite IH. destruct (String.eqb m name); reflexivity.
Qed.

(** X17: a CACHE_URLS message without a [urls] property, or with an
    empty list, is harmless: the promise fulfils, nothing is fetched, the
    runtime store is opened (created empty when missing) and no entry of
    any store changes. *)
Theorem cache_urls_without_urls (env : Env) (cs : CacheStorage)
    (data : option MessageData) :
  has_type data "CACHE_URLS" = true ->
  urls_of data = [] ->
  onmessage data env cs
  = (Fulfilled tt, ensure_store RUNTIME_CACHE cs,
     [EvOpen RUNTIME_CACHE; EvAddAll RUNTIME_CACHE []]).
Proof.
  intros Htype Hurls. unfold onmessage.
  rewrite (has_type_exclusive _ _ "SKIP_WAITING" Htype) by reflexivity.
  rewrite (has_type_exclusive _ _ "CLEAR_CACHE" Htype) by reflexivity.
  rewrite Htype, Hurls. unfold bind at 1. cbn [ret]. unfold bind at 1. cbn [ret].
  unfold bind at 1. rewrite run_caches_open.
  unfold cache_addAll. unfold bind at 1. cbn [emit]. unfold bind at 1.
  cbn [fetch_batch ret map distinct]. unfold bind at 1.
  cbn [get_storage set_storage]. rewrite update_store_nothing. reflexivity.
Qed.

Lemma cache_urls_without_urls_witness :
  onmessage (Some (mkMessage (Some "CACHE_URLS") None)) Sample.offline []
  = (Fulfilled tt, [(RUNTIME_CACHE, ∅)],
     [EvOpen RUNTIME_CACHE; EvAddAll RUNTIME_CACHE []]).
Proof.
  apply (cache_urls_without_urls Sample.offline []
           (Some (mkMessage (Some "CACHE_URLS") None))); reflexivity.
Defined.

(** ** Push notifications *)

Lemma or_else_nonempty v d : d <> "" -> or_else v d <> "".
Proof.
  intros Hd. destruct v as [[|a s]|]; cbn [or_else]; [exact Hd | discriminate | exact Hd].
Qed.

Lemma or_else_given s d : s <> "" -> or_else (Some s) d = s.
Proof. destruct s; [contradiction | reflexivity]. Qed.

(** X18: a push notification is never blank and its click always opens
    a page. Whatever the payload (none, an empty object, empty strings),
    the notification shown has a title and a body that are not empty; the
    URL opened on click is the payload's [url] when it is a string that is
    not empty, and '/' otherwise. *)
Theorem push_notification_never_blank (payload : option PushData) :
  let '(title, options) := onpush payload in
  title <> ""
  /\ opt_body options <> ""
  /\ onnotificationclick (Some (opt_data options)) <> ""
  /\ onnotificationclick (Some (opt_data options))
     = match payload with
       | Some d =>
           match push_url d with
           | Some EmptyString => "/"
           | Some url => url
           | None => "/"
           end
       | None => "/"
       end.
Proof.
  unfold onpush, onnotificationclick. cbn [opt_body opt_data].
  split; [apply or_else_nonempty; discriminate|].
  split; [apply or_else_nonempty; discriminate|].
  assert (Hdata : forall v, or_else v "/" <> "")
    by (intros v; apply or_else_nonempty; discriminate).
  split.
  - rewrite or_else_given; apply Hdata.
  - rewrite or_else_given by apply Hdata.
    destruct payload as [d|]; [|reflexivity].
    destruct (push_url d) as [[|a s]|]; reflexivity.
Qed.
